(** * CorBas backend: the /analyze handler and its fallback semantic tagger

    A shallow embedding of the two entry points of the repository,
    [src/app.py] and [src/corbas_backend_NOCACHE.py]:

    - [get_semantic_fallback], the rule-based tagger (one copy per file,
      with different vocabulary sets);
    - the body of [analyze_text] from [doc = nlp(text)] on: the loop over
      the tokens, the choice between the PyMUSAS tag and the fallback, the
      dictionary built per token, and the blanket [except Exception];
    - the head of [analyze_text], from the JSON body to the call of the
      pipeline, and the name that [highlight_pdf] gives to its download.

    spaCy, PyMUSAS and Flask are outside the repository.  A document is the
    list of its tokens; a token is a Python object whose attributes are
    looked up by name, so each attribute is an [option] and a lookup of an
    absent one raises [AttributeError].  spaCy itself makes no such token:
    its tokens have every attribute. *)

From stdpp Require Import base decidable option list strings gmap.
From Stdlib Require Import Ascii NArith.

Open Scope string_scope.
Open Scope list_scope.

(** ** Python strings

    A [str] is modelled by the [string] of its UTF-8 bytes.  [lower] is
    [str.lower] as far as a comparison with ASCII words can tell: [A]-[Z]
    go to [a]-[z], and U+212A KELVIN SIGN (the bytes 226, 132, 170) goes to
    [k], the one code point outside ASCII whose lower-casing is ASCII.
    Every other code point outside ASCII is kept as it is; Python may map
    it to another one, but never to ASCII only, so the lower-cased string
    is outside every vocabulary set here and there.  Case pairs outside
    ASCII play no part in what follows. *)

Definition lower_char (c : ascii) : ascii :=
  let n := N_of_ascii c in
  if (65 <=? n)%N && (n <=? 90)%N then ascii_of_N (n + 32) else c.

(** The three bytes are the UTF-8 form of U+212A. *)
Definition is_kelvin_sign (c1 c2 c3 : ascii) : bool :=
  Ascii.eqb c1 "226" && Ascii.eqb c2 "132" && Ascii.eqb c3 "170".

Fixpoint lower (s : string) : string :=
  match s with
  | EmptyString => EmptyString
  | String c1 rest =>
      match rest with
      | String c2 (String c3 rest') =>
          if is_kelvin_sign c1 c2 c3 then String "k" (lower rest')
          else String (lower_char c1) (lower rest)
      | _ => String (lower_char c1) (lower rest)
      end
  end.

(** U+212A as a string. *)
Definition kelvin_sign : string :=
  String "226" (String "132" (String "170" EmptyString)).

(** [s] begins with U+212A. *)
Definition kelvin_head (s : string) : Prop :=
  ∃ rest, s = String "226" (String "132" (String "170" rest)).

(** ** Exceptions and the error monad *)

(** A Python exception: the name of its class and its argument. *)
Record exn : Type := Exception {
  exn_class : string;
  exn_arg : string
}.

(** What the lookup of an absent attribute [attr] raises. *)
Definition AttributeError (attr : string) : exn :=
  Exception "AttributeError" attr.

Inductive result (A : Type) : Type :=
  | Ret (a : A)
  | Raise (e : exn).
Arguments Ret {A} a.
Arguments Raise {A} e.

#[global] Instance result_ret : MRet result := @Ret.
#[global] Instance result_bind : MBind result := λ A B f m,
  match m with
  | Ret a => f a
  | Raise e => Raise e
  end.
#[global] Instance result_fmap : FMap result := λ A B f m,
  match m with
  | Ret a => Ret (f a)
  | Raise e => Raise e
  end.

(** [obj.attr] *)
Definition getattr {A : Type} (attr : string) (slot : option A) : result A :=
  match slot with
  | Some v => Ret v
  | None => Raise (AttributeError attr)
  end.

(** ** Tokens *)

Module Token.
(** The attributes of a token that the handler reads.  [head_i] is
    [token.head.i].  [underscore] is [token._], the holder of the
    extension attributes: [None] when the token has no [_], [Some None]
    when [_] has no [pymusas_tags], [Some (Some tags)] when it has. *)
Record t : Type := mk {
  text : option string;
  pos_ : option string;
  tag_ : option string;
  dep_ : option string;
  head_i : option nat;
  lemma_ : option string;
  is_stop : option bool;
  is_punct : option bool;
  underscore : option (option (list string))
}.

(** [token._.pymusas_tags], where there is one. *)
Definition pymusas_tags (token : t) : option (list string) :=
  match underscore token with
  | Some tags => tags
  | None => None
  end.

(** The eight attributes that go into the entry are there. *)
Definition has_fields (token : t) : Prop :=
  is_Some (text token) ∧ is_Some (pos_ token) ∧ is_Some (tag_ token) ∧
  is_Some (dep_ token) ∧ is_Some (head_i token) ∧ is_Some (lemma_ token) ∧
  is_Some (is_stop token) ∧ is_Some (is_punct token).

(** A token as spaCy produces it: every attribute that the handler reads
    is there, [_] included. *)
Definition complete (token : t) : Prop :=
  has_fields token ∧ is_Some (underscore token).

(** The token with another [pymusas_tags] slot in its [_]. *)
Definition with_tags (tags : option (list string)) (token : t) : t :=
  mk (text token) (pos_ token) (tag_ token) (dep_ token) (head_i token)
     (lemma_ token) (is_stop token) (is_punct token) (Some tags).

(** A complete token for a word that is its own lemma and its own head,
    without tagger output. *)
Definition word (lemma pos : string) : t :=
  mk (Some lemma) (Some pos) (Some "") (Some "ROOT") (Some 0) (Some lemma)
     (Some false) (Some false) (Some None).
End Token.

(** ** The response of /analyze *)

(** One element of ["tokens"]. *)
Record entry : Type := mk_entry {
  word : string;
  pos : string;
  tag : string;
  semantic : string;
  dep : string;
  head : nat;
  lemma : string;
  is_stop : bool;
  is_punct : bool
}.

Inductive response : Type :=
  | Json200 (tokens : list entry) (num_tokens : nat)
            (corpus_name : string) (has_pymusas : bool)
  | Json500 (error : exn).

(** ** The handler loop (app.py 91-125, corbas_backend_NOCACHE.py 155-187)

    The two files have the same loop; they differ in the
    [get_semantic_fallback] they call.  [HAS_PYMUSAS] is the module global
    set while PyMUSAS is loaded. *)

Section Handler.
Variable HAS_PYMUSAS : bool.
Variable get_semantic_fallback : Token.t → result string.

(** [hasattr(token._, 'pymusas_tags')]: [token._] is evaluated first and
    raises if the token has no [_]. *)
Definition hasattr_pymusas_tags (token : Token.t) : result bool :=
  underscore ← getattr "_" (Token.underscore token);
  mret (bool_decide (is_Some underscore)).

(** The [if HAS_PYMUSAS and hasattr(...)] block: the value bound to
    [primary_semantic] ([semantic] in the NOCACHE file).  [and] does not
    evaluate its right side when [HAS_PYMUSAS] is false; an empty list is
    falsy. *)
Definition primary_semantic (token : Token.t) : result string :=
  tagged ← (if HAS_PYMUSAS then hasattr_pymusas_tags token else mret false);
  if tagged : bool then
    underscore ← getattr "_" (Token.underscore token);
    semantic_tags ← getattr "pymusas_tags" underscore;
    match semantic_tags with
    | first :: _ => mret first
    | [] => mret "Z99"
    end
  else get_semantic_fallback token.

(** The body of the loop: the dictionary appended for one token.  The
    values of a dictionary display are evaluated left to right. *)
Definition token_entry (token : Token.t) : result entry :=
  primary_semantic ← primary_semantic token;
  word ← getattr "text" (Token.text token);
  pos ← getattr "pos_" (Token.pos_ token);
  tag ← getattr "tag_" (Token.tag_ token);
  dep ← getattr "dep_" (Token.dep_ token);
  head ← getattr "head" (Token.head_i token);
  lemma ← getattr "lemma_" (Token.lemma_ token);
  is_stop ← getattr "is_stop" (Token.is_stop token);
  is_punct ← getattr "is_punct" (Token.is_punct token);
  mret (mk_entry word pos tag primary_semantic dep head lemma is_stop is_punct).

(** [for token in doc: ... tokens.append({...})], started with the
    [tokens] collected so far. *)
Fixpoint for_token_in (doc : list Token.t) (tokens : list entry)
  : result (list entry) :=
  match doc with
  | [] => mret tokens
  | token :: rest =>
      e ← token_entry token;
      for_token_in rest (tokens ++ [e])
  end.

(** [analyze_text] after [doc = nlp(text)]: [corpus_name] is
    [data.get('corpus_name', 'unnamed')], and any exception ends in the
    500 response. *)
Definition analyze_text (corpus_name : option string) (doc : list Token.t)
  : response :=
  match for_token_in doc [] with
  | Ret tokens =>
      Json200 tokens (length tokens) (default "unnamed" corpus_name) HAS_PYMUSAS
  | Raise e => Json500 e
  end.
End Handler.

(** ** app.py *)

Module App.
Definition emotion_positive : gset string :=
  {[ "happy"; "joy"; "delighted"; "pleased"; "excited"; "love"; "wonderful" ]}.
Definition emotion_negative : gset string :=
  {[ "sad"; "angry"; "fear"; "hate"; "anxious"; "worried"; "upset"; "depressed" ]}.
Definition movement_verbs : gset string :=
  {[ "go"; "come"; "move"; "walk"; "run"; "travel"; "arrive"; "leave"; "enter" ]}.
Definition speech_verbs : gset string :=
  {[ "say"; "tell"; "speak"; "talk"; "communicate"; "discuss"; "mention"; "ask" ]}.
Definition thought_verbs : gset string :=
  {[ "think"; "believe"; "know"; "understand"; "consider"; "realize"; "remember" ]}.
Definition positive_adj : gset string :=
  {[ "good"; "great"; "excellent"; "wonderful"; "amazing"; "beautiful"; "perfect"; "nice" ]}.
Definition negative_adj : gset string :=
  {[ "bad"; "poor"; "terrible"; "awful"; "horrible"; "ugly"; "wrong"; "worse" ]}.
Definition time_words : gset string :=
  {[ "today"; "tomorrow"; "yesterday"; "now"; "then"; "soon"; "later"; "before"; "after" ]}.

(** app.py 128-184 *)
Definition get_semantic_fallback (token : Token.t) : result string :=
  pos ← getattr "pos_" (Token.pos_ token);
  lemma ← lower <$> getattr "lemma_" (Token.lemma_ token);
  if decide (lemma ∈ emotion_positive) then mret "E1.1+"
  else if decide (lemma ∈ emotion_negative) then mret "E1.1-"
  else if decide (lemma ∈ movement_verbs) then mret "M1"
  else if decide (lemma ∈ speech_verbs) then mret "Q2.2"
  else if decide (lemma ∈ thought_verbs) then mret "X2.1"
  else if decide (lemma ∈ positive_adj) then mret "A5.1+"
  else if decide (lemma ∈ negative_adj) then mret "A5.1-"
  else if decide (lemma ∈ time_words) then mret "T1"
  else if decide (pos = "NOUN") then mret "O2"
  else if decide (pos = "PROPN") then mret "Z3"
  else if decide (pos = "VERB") then mret "A3+"
  else if decide (pos = "ADJ") then mret "A5"
  else if decide (pos = "ADV") then mret "A13"
  else if decide (pos = "NUM") then mret "N1"
  else if decide (pos = "ADP") then mret "Z5"
  else if decide (pos = "DET") then mret "Z5"
  else if decide (pos = "PRON") then mret "Z8"
  else mret "Z99".

(** The lexical rules in the order in which the function tries them. *)
Definition rules : list (gset string * string) :=
  [ (emotion_positive, "E1.1+"); (emotion_negative, "E1.1-");
    (movement_verbs, "M1"); (speech_verbs, "Q2.2"); (thought_verbs, "X2.1");
    (positive_adj, "A5.1+"); (negative_adj, "A5.1-"); (time_words, "T1") ].

Definition primary_semantic (HAS_PYMUSAS : bool) :=
  primary_semantic HAS_PYMUSAS get_semantic_fallback.
Definition token_entry (HAS_PYMUSAS : bool) :=
  token_entry HAS_PYMUSAS get_semantic_fallback.
Definition analyze_text (HAS_PYMUSAS : bool) :=
  analyze_text HAS_PYMUSAS get_semantic_fallback.
End App.

(** ** corbas_backend_NOCACHE.py *)

Module NoCache.
Definition emotion_pos : gset string :=
  {[ "happy"; "joy"; "delighted"; "pleased"; "excited"; "love"; "wonderful" ]}.
Definition emotion_neg : gset string :=
  {[ "sad"; "angry"; "fear"; "hate"; "anxious"; "worried"; "upset" ]}.
Definition movement : gset string :=
  {[ "go"; "come"; "move"; "walk"; "run"; "travel"; "arrive"; "leave" ]}.
Definition speech : gset string :=
  {[ "say"; "tell"; "speak"; "talk"; "communicate"; "discuss"; "ask" ]}.
Definition thought : gset string :=
  {[ "think"; "believe"; "know"; "understand"; "consider"; "realize" ]}.

(** corbas_backend_NOCACHE.py 252-278 *)
Definition get_semantic_fallback (token : Token.t) : result string :=
  pos ← getattr "pos_" (Token.pos_ token);
  lemma ← lower <$> getattr "lemma_" (Token.lemma_ token);
  if decide (lemma ∈ emotion_pos) then mret "E1.1+"
  else if decide (lemma ∈ emotion_neg) then mret "E1.1-"
  else if decide (lemma ∈ movement) then mret "M1"
  else if decide (lemma ∈ speech) then mret "Q2.2"
  else if decide (lemma ∈ thought) then mret "X2.1"
  else if decide (pos = "NOUN") then mret "O2"
  else if decide (pos = "PROPN") then mret "Z3"
  else if decide (pos = "VERB") then mret "A3+"
  else if decide (pos = "ADJ") then mret "A5"
  else if decide (pos = "ADV") then mret "A13"
  else if decide (pos = "NUM") then mret "N1"
  else if decide (pos ∈ ["ADP"; "DET"]) then mret "Z5"
  else if decide (pos = "PRON") then mret "Z8"
  else mret "Z99".

Definition rules : list (gset string * string) :=
  [ (emotion_pos, "E1.1+"); (emotion_neg, "E1.1-"); (movement, "M1");
    (speech, "Q2.2"); (thought, "X2.1") ].

Definition primary_semantic (HAS_PYMUSAS : bool) :=
  primary_semantic HAS_PYMUSAS get_semantic_fallback.
Definition token_entry (HAS_PYMUSAS : bool) :=
  token_entry HAS_PYMUSAS get_semantic_fallback.
Definition analyze_text (HAS_PYMUSAS : bool) :=
  analyze_text HAS_PYMUSAS get_semantic_fallback.
End NoCache.

(** ** Vocabulary of the statements *)

(** The lemma is in the vocabulary set of no rule. *)
Definition unmatched (rules : list (gset string * string)) (lemma : string) : Prop :=
  Forall (λ r, lemma ∉ r.1) rules.

(** The code of the first rule whose set holds the lemma. *)
Fixpoint first_match (rules : list (gset string * string)) (lemma : string)
  : option string :=
  match rules with
  | [] => None
  | (words, code) :: rest =>
      if decide (lemma ∈ words) then Some code else first_match rest lemma
  end.

(** The sets of the rules, two by two, share no word. *)
Definition pairwise_disjoint (rules : list (gset string * string)) : Prop :=
  ∀ i j r r', i ≠ j → rules !! i = Some r → rules !! j = Some r' → r.1 ## r'.1.

(** Two tokens that differ at most in [pymusas_tags]. *)
Definition same_but_tags (token token' : Token.t) : Prop :=
  ∃ tags, token' = Token.with_tags tags token.

(** The token has no tagger output to take: the attribute is absent or its
    list is empty. *)
Definition untagged (token : Token.t) : Prop :=
  Token.pymusas_tags token = None ∨ Token.pymusas_tags token = Some [].

(** The two files: the fallback of each with its lexical rules. *)
Definition entry_points
  : list ((Token.t → result string) * list (gset string * string)) :=
  [ (App.get_semantic_fallback, App.rules);
    (NoCache.get_semantic_fallback, NoCache.rules) ].

(** The part-of-speech defaults as spec §4.1 step 3 lists them. *)
Definition pos_defaults : list (string * string) :=
  [ ("NOUN", "O2"); ("PROPN", "Z3"); ("VERB", "A3+"); ("ADJ", "A5");
    ("ADV", "A13"); ("NUM", "N1"); ("ADP", "Z5"); ("DET", "Z5"); ("PRON", "Z8") ].

(** The seventeen codes of the classifier of app.py. *)
Definition app_codes : list string :=
  [ "E1.1+"; "E1.1-"; "M1"; "Q2.2"; "X2.1"; "A5.1+"; "A5.1-"; "T1";
    "O2"; "Z3"; "A3+"; "A5"; "A13"; "N1"; "Z5"; "Z8"; "Z99" ].

(** ** The tagger as a table *)

(** All the words of a list of rules. *)
Definition vocabulary (rules : list (gset string * string)) : gset string :=
  ⋃ (rules.*1).

(** The words that app.py has a rule for and the NOCACHE file has not. *)
Definition app_only_words : gset string :=
  vocabulary App.rules ∖ vocabulary NoCache.rules.

(** The value of the first pair of [table] whose key is [key]. *)
Fixpoint assoc (table : list (string * string)) (key : string) : option string :=
  match table with
  | [] => None
  | (k, v) :: rest => if decide (key = k) then Some v else assoc rest key
  end.

(** A classifier driven by two tables: the first rule that holds the
    lower-cased lemma, else the default of the part of speech, else Z99. *)
Definition table_classify (rules : list (gset string * string))
    (lemma pos : string) : string :=
  match first_match rules (lower lemma) with
  | Some code => code
  | None => default "Z99" (assoc pos_defaults pos)
  end.

(** The fourteen codes of the classifier of the NOCACHE file. *)
Definition nocache_codes : list string :=
  [ "E1.1+"; "E1.1-"; "M1"; "Q2.2"; "X2.1";
    "O2"; "Z3"; "A3+"; "A5"; "A13"; "N1"; "Z5"; "Z8"; "Z99" ].

(** ** The head of /analyze (app.py 76-89, corbas_backend_NOCACHE.py 145-155)

    [request.get_json()] is taken to have returned [None] or a JSON object
    whose values are strings, and [nlp], the spaCy pipeline, a module
    global, to return the tokens of the text.  An exception of either, or
    of [len(text)] in app.py, reaches the same [except] and is answered
    500; these answers are outside what is modelled here. *)

Inductive http_method : Type := POST | OPTIONS.

Inductive reply : Type :=
  | Empty204
  | Error400 (error : string)
  | Analysis (r : response).

Section Route.
Variable nlp : string → list Token.t.
Variable HAS_PYMUSAS : bool.

(** The lines before the loop, then the loop.  An empty dictionary is
    falsy; the test for the key and [data['text']] are one [match]. *)
Definition analyze_json (fallback : Token.t → result string)
    (data : option (gmap string string)) : reply :=
  match data with
  | None => Error400 "No text provided"
  | Some data =>
      if decide (data = ∅) then Error400 "No text provided"
      else match data !! "text" with
           | None => Error400 "No text provided"
           | Some text =>
               Analysis (analyze_text HAS_PYMUSAS fallback
                           (data !! "corpus_name") (nlp text))
           end
  end.

(** [analyze_text] of app.py: the route takes POST only. *)
Definition app_analyze_text (data : option (gmap string string)) : reply :=
  analyze_json App.get_semantic_fallback data.

(** [analyze_text] of the NOCACHE file: OPTIONS is answered first. *)
Definition nocache_analyze_text (method : http_method)
    (data : option (gmap string string)) : reply :=
  match method with
  | OPTIONS => Empty204
  | POST => analyze_json NoCache.get_semantic_fallback data
  end.
End Route.

(** The body is missing, or is an object without the key text. *)
Definition lacks_text (data : option (gmap string string)) : Prop :=
  data = None ∨ ∃ d, data = Some d ∧ d !! "text" = None.

(** ** The name of the highlighted PDF (corbas_backend_NOCACHE.py 235-236) *)

(** The part of [s] before its last full stop, if it has one. *)
Fixpoint before_last_dot (s : string) : option string :=
  match s with
  | EmptyString => None
  | String c rest =>
      match before_last_dot rest with
      | Some stem => Some (String c stem)
      | None => if decide (c = "."%char) then Some EmptyString else None
      end
  end.

(** [s.rsplit('.', 1)[0]] *)
Definition rsplit_dot_head (s : string) : string :=
  default s (before_last_dot s).

(** [output_filename] for the uploaded [pdf_file.filename]. *)
Definition output_filename (filename : string) : string :=
  String.append (rsplit_dot_head filename) "_highlighted.pdf".

(** The characters of a string. *)
Definition chars (s : string) : list ascii := String.list_ascii_of_string s.

(** ** The fallback tagger *)

(** The lexical part of [App.get_semantic_fallback] is [first_match] over
    [App.rules]. *)
Lemma app_fallback_lexical token lemma pos code :
  Token.lemma_ token = Some lemma → Token.pos_ token = Some pos →
  first_match App.rules (lower lemma) = Some code →
  App.get_semantic_fallback token = Ret code.
Proof.
  intros Hl Hp. unfold App.get_semantic_fallback. rewrite Hl, Hp. simpl.
  repeat case_decide; intros; simplify_eq; done.
Qed.

Lemma nocache_fallback_lexical token lemma pos code :
  Token.lemma_ token = Some lemma → Token.pos_ token = Some pos →
  first_match NoCache.rules (lower lemma) = Some code →
  NoCache.get_semantic_fallback token = Ret code.
Proof.
  intros Hl Hp. unfold NoCache.get_semantic_fallback. rewrite Hl, Hp. simpl.
  repeat case_decide; intros; simplify_eq; done.
Qed.

Lemma unmatched_first_match rules lemma :
  unmatched rules lemma ↔ first_match rules lemma = None.
Proof.
  unfold unmatched. induction rules as [|[words code] rest IH]; simpl.
  - split; [done | constructor].
  - rewrite Forall_cons. simpl. case_decide.
    + split; [intros [? _]; done | done].
    + rewrite IH. split; [intros [_ ?]; done | done].
Qed.

(** With no lexical rule left, [App.get_semantic_fallback] is the chain of
    comparisons on [pos]. *)
Lemma app_fallback_unmatched token lemma pos :
  Token.lemma_ token = Some lemma → Token.pos_ token = Some pos →
  unmatched App.rules (lower lemma) →
  App.get_semantic_fallback token =
  Ret (if decide (pos = "NOUN") then "O2"
       else if decide (pos = "PROPN") then "Z3"
       else if decide (pos = "VERB") then "A3+"
       else if decide (pos = "ADJ") then "A5"
       else if decide (pos = "ADV") then "A13"
       else if decide (pos = "NUM") then "N1"
       else if decide (pos = "ADP") then "Z5"
       else if decide (pos = "DET") then "Z5"
       else if decide (pos = "PRON") then "Z8"
       else "Z99").
Proof.
  intros Hl Hp Hu. unfold App.get_semantic_fallback. rewrite Hl, Hp. simpl.
  unfold unmatched, App.rules in Hu. rewrite !Forall_cons in Hu. simpl in Hu.
  destruct Hu as (? & ? & ? & ? & ? & ? & ? & ? & _).
  rewrite !decide_False by done. repeat case_decide; reflexivity.
Qed.

Lemma nocache_fallback_unmatched token lemma pos :
  Token.lemma_ token = Some lemma → Token.pos_ token = Some pos →
  unmatched NoCache.rules (lower lemma) →
  NoCache.get_semantic_fallback token =
  Ret (if decide (pos = "NOUN") then "O2"
       else if decide (pos = "PROPN") then "Z3"
       else if decide (pos = "VERB") then "A3+"
       else if decide (pos = "ADJ") then "A5"
       else if decide (pos = "ADV") then "A13"
       else if decide (pos = "NUM") then "N1"
       else if decide (pos ∈ ["ADP"; "DET"]) then "Z5"
       else if decide (pos = "PRON") then "Z8"
       else "Z99").
Proof.
  intros Hl Hp Hu. unfold NoCache.get_semantic_fallback. rewrite Hl, Hp. simpl.
  unfold unmatched, NoCache.rules in Hu. rewrite !Forall_cons in Hu. simpl in Hu.
  destruct Hu as (? & ? & ? & ? & ? & _).
  rewrite !decide_False by done. repeat case_decide; reflexivity.
Qed.

(** Membership in the table of defaults, entry by entry. *)
Lemma elem_of_pos_defaults pos code :
  (pos, code) ∈ pos_defaults ↔
  (pos = "NOUN" ∧ code = "O2") ∨ (pos = "PROPN" ∧ code = "Z3") ∨
  (pos = "VERB" ∧ code = "A3+") ∨ (pos = "ADJ" ∧ code = "A5") ∨
  (pos = "ADV" ∧ code = "A13") ∨ (pos = "NUM" ∧ code = "N1") ∨
  (pos = "ADP" ∧ code = "Z5") ∨ (pos = "DET" ∧ code = "Z5") ∨
  (pos = "PRON" ∧ code = "Z8").
Proof.
  unfold pos_defaults. rewrite !elem_of_cons, elem_of_nil.
  split.
  - intros H. repeat (destruct H as [H|H]; [simplify_eq; tauto |]). done.
  - intros H. repeat (destruct H as [[-> ->]|H]; [tauto |]). destruct H as [-> ->]. tauto.
Qed.

Lemma not_elem_of_pos_defaults pos :
  pos ∉ pos_defaults.*1 ↔
  pos ≠ "NOUN" ∧ pos ≠ "PROPN" ∧ pos ≠ "VERB" ∧ pos ≠ "ADJ" ∧ pos ≠ "ADV" ∧
  pos ≠ "NUM" ∧ pos ≠ "ADP" ∧ pos ≠ "DET" ∧ pos ≠ "PRON".
Proof.
  unfold pos_defaults. simpl. rewrite !not_elem_of_cons.
  split; [tauto | intros; repeat split; try tauto; apply not_elem_of_nil].
Qed.

(** C1. A lemma whose lower-casing is in no vocabulary set of a classifier
    gets the default code of its part of speech, in app.py and in the
    NOCACHE file alike: NOUN gives O2, PROPN Z3, VERB A3+, ADJ A5, ADV A13,
    NUM N1, ADP and DET Z5, PRON Z8 (the entries of [pos_defaults]), and
    every other part of speech gives Z99.  The lemma xyzzy as a NOUN gets
    O2. *)
Theorem fallback_default_by_pos :
  (∀ token lemma pos,
     Token.lemma_ token = Some lemma → Token.pos_ token = Some pos →
     (unmatched App.rules (lower lemma) →
        (∀ code, (pos, code) ∈ pos_defaults →
                 App.get_semantic_fallback token = Ret code) ∧
        (pos ∉ pos_defaults.*1 → App.get_semantic_fallback token = Ret "Z99")) ∧
     (unmatched NoCache.rules (lower lemma) →
        (∀ code, (pos, code) ∈ pos_defaults →
                 NoCache.get_semantic_fallback token = Ret code) ∧
        (pos ∉ pos_defaults.*1 → NoCache.get_semantic_fallback token = Ret "Z99"))) ∧
  App.get_semantic_fallback (Token.word "xyzzy" "NOUN") = Ret "O2" ∧
  NoCache.get_semantic_fallback (Token.word "xyzzy" "NOUN") = Ret "O2".
Proof.
  split; [| by vm_compute].
  intros token lemma pos Hl Hp. split; intros Hu.
  - rewrite (app_fallback_unmatched _ _ _ Hl Hp Hu). split.
    + intros code Hc. apply elem_of_pos_defaults in Hc.
      repeat (destruct Hc as [[-> ->]|Hc]; [reflexivity |]).
      destruct Hc as [-> ->]. reflexivity.
    + intros Hn. apply not_elem_of_pos_defaults in Hn.
      destruct Hn as (? & ? & ? & ? & ? & ? & ? & ? & ?).
      rewrite !decide_False by done. reflexivity.
  - rewrite (nocache_fallback_unmatched _ _ _ Hl Hp Hu). split.
    + intros code Hc. apply elem_of_pos_defaults in Hc.
      repeat (destruct Hc as [[-> ->]|Hc]; [reflexivity |]).
      destruct Hc as [-> ->]. reflexivity.
    + intros Hn. apply not_elem_of_pos_defaults in Hn.
      destruct Hn as (? & ? & ? & ? & ? & ? & ? & ? & ?).
      rewrite !decide_False by (try done; rewrite !not_elem_of_cons;
                                 split_and?; try done; apply not_elem_of_nil).
      reflexivity.
Qed.

Lemma fallback_default_by_pos_witness :
  App.get_semantic_fallback (Token.word "Table" "ADV") = Ret "A13" ∧
  NoCache.get_semantic_fallback (Token.word "Table" "PUNCT") = Ret "Z99".
Proof.
  split.
  - apply (proj1 (proj1 (proj1 fallback_default_by_pos
             (Token.word "Table" "ADV") "Table" "ADV" eq_refl eq_refl)
             ltac:(apply (bool_decide_unpack _); vm_compute; exact I))).
    apply (bool_decide_unpack _). vm_compute. exact I.
  - apply (proj2 (proj2 (proj1 fallback_default_by_pos
             (Token.word "Table" "PUNCT") "Table" "PUNCT" eq_refl eq_refl)
             ltac:(apply (bool_decide_unpack _); vm_compute; exact I))).
    apply (bool_decide_unpack _). vm_compute. exact I.
Defined.

(** C5. A lemma whose lower-casing is a positive-emotion word gets E1.1+
    whatever its part of speech, in both files; the lookup ignores case:
    Happy as an ADJ gets E1.1+. *)
Theorem positive_emotion_any_pos :
  (∀ token lemma pos,
     Token.lemma_ token = Some lemma → Token.pos_ token = Some pos →
     (lower lemma ∈ App.emotion_positive →
        App.get_semantic_fallback token = Ret "E1.1+") ∧
     (lower lemma ∈ NoCache.emotion_pos →
        NoCache.get_semantic_fallback token = Ret "E1.1+")) ∧
  App.get_semantic_fallback (Token.word "Happy" "ADJ") = Ret "E1.1+" ∧
  NoCache.get_semantic_fallback (Token.word "Happy" "ADJ") = Ret "E1.1+".
Proof.
  split; [| by vm_compute].
  intros token lemma pos Hl Hp. split; intros Hin.
  - unfold App.get_semantic_fallback. rewrite Hl, Hp. simpl.
    by rewrite decide_True.
  - unfold NoCache.get_semantic_fallback. rewrite Hl, Hp. simpl.
    by rewrite decide_True.
Qed.

Lemma positive_emotion_any_pos_witness :
  App.get_semantic_fallback (Token.word "LOVE" "NOUN") = Ret "E1.1+" ∧
  NoCache.get_semantic_fallback (Token.word "Joy" "PROPN") = Ret "E1.1+".
Proof.
  split.
  - apply (proj1 (proj1 positive_emotion_any_pos
             (Token.word "LOVE" "NOUN") "LOVE" "NOUN" eq_refl eq_refl)).
    apply (bool_decide_unpack _). vm_compute. exact I.
  - apply (proj2 (proj1 positive_emotion_any_pos
             (Token.word "Joy" "PROPN") "Joy" "PROPN" eq_refl eq_refl)).
    apply (bool_decide_unpack _). vm_compute. exact I.
Defined.

(** C10. On every token that has a lemma and a part of speech, the
    classifier of app.py returns, without raising, one of the seventeen
    codes of [app_codes]; the code is never the empty string. *)
Theorem app_fallback_total :
  ∀ token lemma pos,
    Token.lemma_ token = Some lemma → Token.pos_ token = Some pos →
    ∃ code, App.get_semantic_fallback token = Ret code ∧
            code ∈ app_codes ∧ code ≠ "".
Proof.
  intros token lemma pos Hl Hp.
  unfold App.get_semantic_fallback. rewrite Hl, Hp. simpl.
  repeat case_decide;
    (eexists; split; [reflexivity |]; split;
     [apply (bool_decide_unpack _); vm_compute; exact I | discriminate]).
Qed.

Lemma app_fallback_total_witness :
  ∃ code, App.get_semantic_fallback (Token.word "Tomorrow" "ADV") = Ret code ∧
          code ∈ app_codes ∧ code ≠ "".
Proof.
  apply (app_fallback_total (Token.word "Tomorrow" "ADV") "Tomorrow" "ADV");
    reflexivity.
Defined.

(** Each of the seventeen codes is the result on some word. *)
Lemma app_codes_reached code :
  code ∈ app_codes →
  ∃ lemma pos, App.get_semantic_fallback (Token.word lemma pos) = Ret code.
Proof.
  unfold app_codes. rewrite !elem_of_cons, elem_of_nil. intros H.
  repeat destruct H as [->|H]; [..| done].
  - by exists "joy", "NOUN".
  - by exists "sad", "ADJ".
  - by exists "go", "VERB".
  - by exists "say", "VERB".
  - by exists "know", "VERB".
  - by exists "good", "ADJ".
  - by exists "bad", "ADJ".
  - by exists "now", "ADV".
  - by exists "cat", "NOUN".
  - by exists "basra", "PROPN".
  - by exists "be", "VERB".
  - by exists "red", "ADJ".
  - by exists "very", "ADV".
  - by exists "two", "NUM".
  - by exists "of", "ADP".
  - by exists "i", "PRON".
  - by exists ".", "PUNCT".
Qed.

(** The NOCACHE classifier never returns the codes of the three rules it
    lacks. *)
Lemma nocache_fallback_codes token code :
  NoCache.get_semantic_fallback token = Ret code →
  code ∉ ["A5.1+"; "A5.1-"; "T1"].
Proof.
  unfold NoCache.get_semantic_fallback.
  destruct (Token.pos_ token), (Token.lemma_ token); simpl; try done.
  repeat case_decide; intros [= <-];
    apply (bool_decide_unpack _); vm_compute; exact I.
Qed.

(** C8. The two classifiers are not the same function: app.py has the
    rules for positive adjectives, negative adjectives and time words,
    whose codes A5.1+, A5.1- and T1 it returns on good, bad and now, and
    which the NOCACHE file never returns; on the lemma good as an ADJ
    app.py answers A5.1+ and the NOCACHE file A5. *)
Theorem fallbacks_differ :
  App.get_semantic_fallback (Token.word "good" "ADJ") = Ret "A5.1+" ∧
  NoCache.get_semantic_fallback (Token.word "good" "ADJ") = Ret "A5" ∧
  (∃ token, App.get_semantic_fallback token ≠ NoCache.get_semantic_fallback token) ∧
  App.get_semantic_fallback (Token.word "bad" "ADJ") = Ret "A5.1-" ∧
  App.get_semantic_fallback (Token.word "now" "ADV") = Ret "T1" ∧
  (∀ token, NoCache.get_semantic_fallback token ∉
              [Ret "A5.1+"; Ret "A5.1-"; Ret "T1"]).
Proof.
  split_and!; try by vm_compute.
  - exists (Token.word "good" "ADJ"). by vm_compute.
  - intros token. rewrite !not_elem_of_cons. split_and!; try apply not_elem_of_nil.
    all: intros H; apply nocache_fallback_codes in H; revert H;
      rewrite !not_elem_of_cons; tauto.
Qed.

(** ** Priority of the lexical rules *)

(** [first_match] answers with the rule of least index that holds the
    lemma. *)
Lemma first_match_earliest rules lemma i r :
  rules !! i = Some r → lemma ∈ r.1 →
  (∀ j r', j < i → rules !! j = Some r' → lemma ∉ r'.1) →
  first_match rules lemma = Some r.2.
Proof.
  revert i. induction rules as [|[words code] rest IH]; intros i Hi Hin Hbefore.
  - by rewrite lookup_nil in Hi.
  - simpl. destruct i as [|i].
    + simpl in Hi. injection Hi as <-. by rewrite decide_True.
    + rewrite decide_False.
      * apply (IH i); [done | done |].
        intros j r' Hj Hr'. apply (Hbefore (S j) r'); [lia | done].
      * apply (Hbefore 0 (words, code)); [lia | done].
Qed.

Ltac decide_by_computation := apply (bool_decide_unpack _); vm_compute; exact I.

Lemma app_rules_overlap i j r r' :
  i < j → App.rules !! i = Some r → App.rules !! j = Some r' →
  r.1 ## r'.1 ∨ (i = 0 ∧ j = 5 ∧ r.1 ∩ r'.1 = {[ "wonderful" ]}).
Proof.
  intros Hij Hi Hj.
  destruct i as [|[|[|[|[|[|[|[|i]]]]]]]]; [..| done];
    destruct j as [|[|[|[|[|[|[|[|j]]]]]]]]; try lia; try done;
    simpl in Hi, Hj; simplify_eq; simpl;
    first [left; decide_by_computation
          |right; split_and!; [done | done | decide_by_computation]].
Qed.

Lemma nocache_rules_disjoint : pairwise_disjoint NoCache.rules.
Proof.
  intros i j r r' Hij Hi Hj.
  destruct i as [|[|[|[|[|i]]]]]; [..| done];
    destruct j as [|[|[|[|[|j]]]]]; try done;
    simpl in Hi, Hj; simplify_eq; simpl; decide_by_computation.
Qed.

(** C3, against the claim: wonderful is both a positive-emotion word and a
    positive adjective in app.py, so the eight sets are not pairwise
    disjoint. *)
Lemma app_rules_not_disjoint :
  "wonderful" ∈ App.emotion_positive ∧ "wonderful" ∈ App.positive_adj ∧
  ¬ pairwise_disjoint App.rules.
Proof.
  split_and!; [decide_by_computation | decide_by_computation |].
  intros Hd.
  specialize (Hd 0 5 (App.emotion_positive, "E1.1+") (App.positive_adj, "A5.1+")
                ltac:(done) eq_refl eq_refl).
  revert Hd. decide_by_computation.
Qed.

(** C3, amended.  In app.py the eight vocabulary sets are pairwise disjoint
    but for one word: wonderful is in the positive-emotion set (rule 0) and
    in the positive-adjective set (rule 5), and in no other pair; the five
    sets of the NOCACHE file are pairwise disjoint.  In both files a lemma
    that is in the set of a rule and in the set of no earlier rule gets the
    code of that rule, so a lemma in two sets resolves to the earlier one:
    wonderful gets E1.1+, never A5.1+. *)
Theorem vocabulary_overlap_and_priority :
  (∀ i j r r', i < j → App.rules !! i = Some r → App.rules !! j = Some r' →
     r.1 ## r'.1 ∨ (i = 0 ∧ j = 5 ∧ r.1 ∩ r'.1 = {[ "wonderful" ]})) ∧
  pairwise_disjoint NoCache.rules ∧
  (∀ token lemma pos i r,
     Token.lemma_ token = Some lemma → Token.pos_ token = Some pos →
     lower lemma ∈ r.1 →
     (∀ j r', j < i → App.rules !! j = Some r' → lower lemma ∉ r'.1) →
     (App.rules !! i = Some r → App.get_semantic_fallback token = Ret r.2)) ∧
  (∀ token lemma pos i r,
     Token.lemma_ token = Some lemma → Token.pos_ token = Some pos →
     lower lemma ∈ r.1 →
     (∀ j r', j < i → NoCache.rules !! j = Some r' → lower lemma ∉ r'.1) →
     (NoCache.rules !! i = Some r → NoCache.get_semantic_fallback token = Ret r.2)) ∧
  (∀ pos, App.get_semantic_fallback (Token.word "wonderful" pos) = Ret "E1.1+").
Proof.
  split_and!.
  - apply app_rules_overlap.
  - apply nocache_rules_disjoint.
  - intros token lemma pos i r Hl Hp Hin Hbefore Hi.
    apply (app_fallback_lexical _ _ _ _ Hl Hp).
    by apply (first_match_earliest _ _ i).
  - intros token lemma pos i r Hl Hp Hin Hbefore Hi.
    apply (nocache_fallback_lexical _ _ _ _ Hl Hp).
    by apply (first_match_earliest _ _ i).
  - intros pos. reflexivity.
Qed.

Lemma vocabulary_overlap_and_priority_witness :
  (App.emotion_positive ∩ App.positive_adj = {[ "wonderful" ]}) ∧
  App.emotion_negative ## App.time_words ∧
  NoCache.emotion_pos ## NoCache.thought ∧
  App.get_semantic_fallback (Token.word "Wonderful" "ADJ") = Ret "E1.1+" ∧
  NoCache.get_semantic_fallback (Token.word "Ask" "VERB") = Ret "Q2.2".
Proof.
  destruct vocabulary_overlap_and_priority as (Hov & Hdis & Happ & Hnc & _).
  split_and!.
  - destruct (Hov 0 5 (App.emotion_positive, "E1.1+") (App.positive_adj, "A5.1+")
                ltac:(lia) eq_refl eq_refl) as [Hd | (_ & _ & Hi)].
    + exfalso. revert Hd. decide_by_computation.
    + exact Hi.
  - destruct (Hov 1 7 (App.emotion_negative, "E1.1-") (App.time_words, "T1")
                ltac:(lia) eq_refl eq_refl) as [Hd | (Hi & _)].
    + exact Hd.
    + discriminate Hi.
  - exact (Hdis 0 4 (NoCache.emotion_pos, "E1.1+") (NoCache.thought, "X2.1")
             ltac:(lia) eq_refl eq_refl).
  - apply (Happ (Token.word "Wonderful" "ADJ") "Wonderful" "ADJ" 0
             (App.emotion_positive, "E1.1+") eq_refl eq_refl).
    + decide_by_computation.
    + intros j r' Hj. lia.
    + reflexivity.
  - apply (Hnc (Token.word "Ask" "VERB") "Ask" "VERB" 3
             (NoCache.speech, "Q2.2") eq_refl eq_refl).
    + decide_by_computation.
    + intros j r' Hj Hr'.
      destruct j as [|[|[|j]]]; [..| lia]; simpl in Hr'; injection Hr' as <-;
        decide_by_computation.
    + reflexivity.
Defined.

(** ** The handler *)

Section HandlerFacts.
Variable HAS_PYMUSAS : bool.
Variable fallback : Token.t → result string.

Lemma pymusas_tags_Some token tags :
  Token.pymusas_tags token = Some tags ↔ Token.underscore token = Some (Some tags).
Proof.
  unfold Token.pymusas_tags. destruct (Token.underscore token) as [[l|]|].
  - split; [by intros [= ->] | by intros [= ->]].
  - split; done.
  - split; done.
Qed.

Lemma pymusas_tags_None token :
  Token.pymusas_tags token = None ↔
  Token.underscore token = None ∨ Token.underscore token = Some None.
Proof.
  unfold Token.pymusas_tags. destruct (Token.underscore token) as [[l|]|].
  - split; [done | by intros [|]].
  - split; [by right | done].
  - split; [by left | done].
Qed.

Lemma primary_semantic_tagged token first rest :
  HAS_PYMUSAS = true → Token.pymusas_tags token = Some (first :: rest) →
  primary_semantic HAS_PYMUSAS fallback token = Ret first.
Proof.
  intros -> Ht%pymusas_tags_Some. unfold primary_semantic, hasattr_pymusas_tags.
  rewrite Ht. reflexivity.
Qed.

Lemma primary_semantic_silent token :
  HAS_PYMUSAS = true → Token.pymusas_tags token = Some [] →
  primary_semantic HAS_PYMUSAS fallback token = Ret "Z99".
Proof.
  intros -> Ht%pymusas_tags_Some. unfold primary_semantic, hasattr_pymusas_tags.
  rewrite Ht. reflexivity.
Qed.

(** [_] is there and has no [pymusas_tags]. *)
Lemma primary_semantic_no_attribute token :
  Token.underscore token = Some None →
  primary_semantic HAS_PYMUSAS fallback token = fallback token.
Proof.
  intros Ht. unfold primary_semantic, hasattr_pymusas_tags.
  rewrite Ht. by destruct HAS_PYMUSAS.
Qed.

(** With the tagger loaded a token without [_] raises at [token._]. *)
Lemma primary_semantic_no_underscore token :
  HAS_PYMUSAS = true → Token.underscore token = None →
  primary_semantic HAS_PYMUSAS fallback token = Raise (AttributeError "_").
Proof.
  intros -> Ht. unfold primary_semantic, hasattr_pymusas_tags.
  rewrite Ht. reflexivity.
Qed.

Lemma primary_semantic_no_tagger token :
  HAS_PYMUSAS = false →
  primary_semantic HAS_PYMUSAS fallback token = fallback token.
Proof. intros ->. reflexivity. Qed.

(** A value chosen without tagger output is the result of the fallback. *)
Lemma primary_semantic_by_fallback token s :
  HAS_PYMUSAS = false ∨ Token.pymusas_tags token = None →
  primary_semantic HAS_PYMUSAS fallback token = Ret s →
  fallback token = Ret s.
Proof.
  intros [Hh | Ht].
  - by rewrite primary_semantic_no_tagger.
  - apply pymusas_tags_None in Ht as [Hu | Hu].
    + destruct HAS_PYMUSAS eqn:Hh.
      * unfold primary_semantic, hasattr_pymusas_tags. by rewrite Hu.
      * unfold primary_semantic. done.
    + by rewrite primary_semantic_no_attribute.
Qed.

(** What a returned entry says about the token it was built from. *)
Lemma token_entry_inv token e :
  token_entry HAS_PYMUSAS fallback token = Ret e →
  primary_semantic HAS_PYMUSAS fallback token = Ret (semantic e) ∧
  Token.text token = Some (word e) ∧ Token.pos_ token = Some (pos e) ∧
  Token.tag_ token = Some (tag e) ∧ Token.dep_ token = Some (dep e) ∧
  Token.head_i token = Some (head e) ∧ Token.lemma_ token = Some (lemma e) ∧
  Token.is_stop token = Some (is_stop e) ∧
  Token.is_punct token = Some (is_punct e).
Proof.
  unfold token_entry.
  destruct (primary_semantic HAS_PYMUSAS fallback token) as [s|]; [| done].
  destruct token as [[w|] [p|] [t|] [d|] [h|] [l|] [st|] [pu|] tags];
    simpl; try done.
  intros [= <-]. done.
Qed.

Lemma token_entry_complete token :
  Token.has_fields token →
  ∀ s, primary_semantic HAS_PYMUSAS fallback token = Ret s →
       ∃ e, token_entry HAS_PYMUSAS fallback token = Ret e ∧ semantic e = s.
Proof.
  intros (Hw & Hp & Ht & Hd & Hh & Hl & Hs & Hu) s Hsem.
  unfold token_entry. rewrite Hsem.
  destruct Hw as [w ->], Hp as [p ->], Ht as [t ->], Hd as [d ->],
           Hh as [h ->], Hl as [l ->], Hs as [st ->], Hu as [pu ->].
  simpl. eexists. split; reflexivity.
Qed.

Lemma token_entry_incomplete token :
  ¬ Token.has_fields token →
  ∃ e, token_entry HAS_PYMUSAS fallback token = Raise e.
Proof.
  intros Hn. unfold token_entry.
  destruct (primary_semantic HAS_PYMUSAS fallback token) as [s|e]; [| by exists e].
  destruct token as [[w|] [p|] [t|] [d|] [h|] [l|] [st|] [pu|] tags];
    simpl; eauto.
  destruct Hn. unfold Token.has_fields. simpl. split_and!; eauto.
Qed.


(** The loop returns exactly when every token yields its entry, and then
    it has appended the entries in the order of the tokens. *)
Lemma for_token_in_ret doc tokens out :
  for_token_in HAS_PYMUSAS fallback doc tokens = Ret out ↔
  ∃ es, Forall2 (λ t e, token_entry HAS_PYMUSAS fallback t = Ret e) doc es ∧
        out = tokens ++ es.
Proof.
  revert tokens. induction doc as [|token rest IH]; intros tokens; simpl.
  - split.
    + intros [= <-]. exists []. split; [constructor | by rewrite app_nil_r].
    + intros (es & Hes & ->). apply Forall2_nil_inv_l in Hes as ->.
      by rewrite app_nil_r.
  - destruct (token_entry HAS_PYMUSAS fallback token) as [e|x] eqn:He; simpl.
    + rewrite IH. split.
      * intros (es & Hes & ->). exists (e :: es).
        split; [by constructor | by rewrite <- app_assoc].
      * intros (es & Hes & ->).
        apply Forall2_cons_inv_l in Hes as (e' & es' & He' & Hes' & ->).
        rewrite He in He'. injection He' as <-.
        exists es'. split; [done | by rewrite <- app_assoc].
    + split; [done |].
      intros (es & Hes & _).
      apply Forall2_cons_inv_l in Hes as (e' & es' & He' & _).
      by rewrite He in He'.
Qed.

(** The loop raises exactly when some token does. *)
Lemma for_token_in_raise doc tokens :
  (∃ x, for_token_in HAS_PYMUSAS fallback doc tokens = Raise x) ↔
  Exists (λ t, ∃ x, token_entry HAS_PYMUSAS fallback t = Raise x) doc.
Proof.
  revert tokens. induction doc as [|token rest IH]; intros tokens; simpl.
  - rewrite Exists_nil. split; [by intros [x ?] | done].
  - rewrite Exists_cons.
    destruct (token_entry HAS_PYMUSAS fallback token) as [e|x] eqn:He; simpl.
    + rewrite IH. split; [by right |].
      intros [[x ?] | ?]; [done | done].
    + split; [intros _; left; by exists x | intros _; by exists x].
Qed.

Hypothesis fallback_total :
  ∀ token, is_Some (Token.pos_ token) → is_Some (Token.lemma_ token) →
           ∃ s, fallback token = Ret s.

Lemma primary_semantic_total token :
  Token.has_fields token →
  (HAS_PYMUSAS = true → is_Some (Token.underscore token)) →
  ∃ s, primary_semantic HAS_PYMUSAS fallback token = Ret s.
Proof.
  intros (_ & Hp & _ & _ & _ & Hl & _) Hu.
  destruct HAS_PYMUSAS eqn:Hh.
  - destruct (Hu eq_refl) as [[[|first rest]|] Hext];
      unfold primary_semantic, hasattr_pymusas_tags; rewrite Hext; simpl; eauto.
  - unfold primary_semantic. simpl. by apply fallback_total.
Qed.

(** The normalizer raises exactly on a token that lacks one of the eight
    attributes or, with the tagger loaded, [_]. *)
Lemma token_entry_raises_iff token :
  (∃ x, token_entry HAS_PYMUSAS fallback token = Raise x) ↔
  ¬ Token.has_fields token ∨
  (HAS_PYMUSAS = true ∧ Token.underscore token = None).
Proof.
  split.
  - intros [x Hx].
    destruct (decide (HAS_PYMUSAS = true ∧ Token.underscore token = None))
      as [|Hn]; [by right |].
    left. intros Hc.
    destruct (primary_semantic_total token Hc) as [s Hs].
    { intros Hh. destruct (Token.underscore token) eqn:Hu; [by eexists |].
      destruct Hn. done. }
    destruct (token_entry_complete token Hc s Hs) as (e & He & _).
    by rewrite He in Hx.
  - intros [Hn | [Hh Hu]].
    + by apply token_entry_incomplete.
    + unfold token_entry. rewrite primary_semantic_no_underscore by done.
      by eexists.
Qed.

Lemma token_entry_complete_returns token :
  Token.complete token →
  ∃ e, token_entry HAS_PYMUSAS fallback token = Ret e.
Proof.
  intros [Hf Hu].
  destruct (token_entry HAS_PYMUSAS fallback token) as [e|x] eqn:He; [by exists e |].
  exfalso.
  assert (∃ x, token_entry HAS_PYMUSAS fallback token = Raise x) as Hr by by exists x.
  apply token_entry_raises_iff in Hr as [Hn | [_ Hnone]]; [done |].
  rewrite Hnone in Hu. by destruct Hu.
Qed.


Lemma analyze_text_succeeds corpus_name doc :
  Forall Token.complete doc →
  ∃ tokens,
    analyze_text HAS_PYMUSAS fallback corpus_name doc =
      Json200 tokens (length doc) (default "unnamed" corpus_name) HAS_PYMUSAS ∧
    Forall2 (λ t e, token_entry HAS_PYMUSAS fallback t = Ret e) doc tokens.
Proof.
  intros Hc. unfold analyze_text.
  destruct (for_token_in HAS_PYMUSAS fallback doc []) as [out|x] eqn:Hloop.
  - apply for_token_in_ret in Hloop as (es & Hes & ->). simpl.
    exists es. split; [| done].
    by rewrite (Forall2_length _ _ _ Hes).
  - exfalso.
    assert (∃ x, for_token_in HAS_PYMUSAS fallback doc [] = Raise x) as Hr
      by by exists x.
    apply for_token_in_raise, Exists_exists in Hr as (t & Hin & [y Hy]).
    rewrite Forall_forall in Hc.
    destruct (token_entry_complete_returns t (Hc t Hin)) as [e He]. congruence.
Qed.
End HandlerFacts.

(** Tokens that yield the same entries make the loop yield the same list. *)
Lemma for_token_in_ext has fallback doc doc' tokens :
  Forall2 (λ t t', token_entry has fallback t = token_entry has fallback t') doc doc' →
  for_token_in has fallback doc tokens = for_token_in has fallback doc' tokens.
Proof.
  intros H. revert tokens. induction H as [|t t' doc doc' Ht _ IH]; intros tokens.
  - reflexivity.
  - simpl. rewrite Ht. destruct (token_entry has fallback t'); simpl; [apply IH | done].
Qed.

Lemma primary_semantic_sentinel fallback token :
  primary_semantic true fallback token = Ret "Z99" ↔
  Token.pymusas_tags token = Some [] ∨
  (∃ rest, Token.pymusas_tags token = Some ("Z99" :: rest)) ∨
  (Token.underscore token = Some None ∧ fallback token = Ret "Z99").
Proof.
  unfold primary_semantic, hasattr_pymusas_tags, Token.pymusas_tags.
  destruct (Token.underscore token) as [[[|first rest]|]|]; simpl.
  - split; [by left | done].
  - split.
    + intros [= ->]. right. left. by exists rest.
    + intros [? | [[rest' [= -> _]] | [? _]]]; done.
  - split; [intros ?; right; by right |].
    intros [? | [[rest' ?] | [_ ?]]]; done.
  - split; [done |].
    intros [? | [[rest' ?] | [? _]]]; done.
Qed.

(** *** Facts on the two fallbacks *)

Lemma entry_points_cases
    (P : (Token.t → result string) → list (gset string * string) → Prop) :
  P App.get_semantic_fallback App.rules →
  P NoCache.get_semantic_fallback NoCache.rules →
  ∀ fallback rules, (fallback, rules) ∈ entry_points → P fallback rules.
Proof.
  intros Happ Hnc fallback rules. unfold entry_points.
  rewrite !elem_of_cons, elem_of_nil.
  intros [[= -> ->] | [[= -> ->] | []]]; done.
Qed.

Lemma fallback_returns fallback rules token :
  (fallback, rules) ∈ entry_points →
  is_Some (Token.pos_ token) → is_Some (Token.lemma_ token) →
  ∃ s, fallback token = Ret s ∧ s ≠ "".
Proof.
  intros Hin. revert token. revert fallback rules Hin.
  refine (entry_points_cases
            (λ f _, ∀ token, is_Some (Token.pos_ token) → is_Some (Token.lemma_ token) →
                             ∃ s, f token = Ret s ∧ s ≠ "") _ _);
    intros token [pos Hp] [lemma Hl].
  - unfold App.get_semantic_fallback. rewrite Hl, Hp. simpl.
    repeat case_decide; (eexists; split; [reflexivity | discriminate]).
  - unfold NoCache.get_semantic_fallback. rewrite Hl, Hp. simpl.
    repeat case_decide; (eexists; split; [reflexivity | discriminate]).
Qed.

Lemma fallback_ignores_tags fallback rules tags token :
  (fallback, rules) ∈ entry_points →
  fallback (Token.with_tags tags token) = fallback token.
Proof.
  intros Hin. revert token. revert fallback rules Hin.
  refine (entry_points_cases
            (λ f _, ∀ token, f (Token.with_tags tags token) = f token) _ _);
    intros token; reflexivity.
Qed.

Lemma fallback_sentinel_iff fallback rules token lemma pos :
  (fallback, rules) ∈ entry_points →
  Token.lemma_ token = Some lemma → Token.pos_ token = Some pos →
  fallback token = Ret "Z99" ↔
  unmatched rules (lower lemma) ∧ pos ∉ pos_defaults.*1.
Proof.
  intros Hin Hl Hp. revert fallback rules Hin.
  apply (entry_points_cases (λ f r,
           f token = Ret "Z99" ↔ unmatched r (lower lemma) ∧ pos ∉ pos_defaults.*1)).
  - rewrite not_elem_of_pos_defaults. split.
    + intros Hz.
      destruct (first_match App.rules (lower lemma)) as [code|] eqn:Hfm.
      * rewrite (app_fallback_lexical _ _ _ _ Hl Hp Hfm) in Hz.
        revert Hfm. injection Hz as ->. simpl.
        repeat case_decide; done.
      * apply unmatched_first_match in Hfm. split; [done |].
        rewrite (app_fallback_unmatched _ _ _ Hl Hp Hfm) in Hz.
        revert Hz. repeat case_decide; done.
    + intros [Hu (? & ? & ? & ? & ? & ? & ? & ? & ?)].
      rewrite (app_fallback_unmatched _ _ _ Hl Hp Hu).
      by rewrite !decide_False.
  - rewrite not_elem_of_pos_defaults. split.
    + intros Hz.
      destruct (first_match NoCache.rules (lower lemma)) as [code|] eqn:Hfm.
      * rewrite (nocache_fallback_lexical _ _ _ _ Hl Hp Hfm) in Hz.
        revert Hfm. injection Hz as ->. simpl.
        repeat case_decide; done.
      * apply unmatched_first_match in Hfm. split; [done |].
        rewrite (nocache_fallback_unmatched _ _ _ Hl Hp Hfm) in Hz.
        revert Hz. repeat case_decide; try done. intros _.
        match goal with H : pos ∉ _ |- _ => rewrite !not_elem_of_cons in H end.
        split_and!; tauto.
    + intros [Hu (? & ? & ? & ? & ? & ? & ? & ? & ?)].
      rewrite (nocache_fallback_unmatched _ _ _ Hl Hp Hu).
      rewrite !decide_False; try done.
      rewrite !not_elem_of_cons. split_and!; try done. apply not_elem_of_nil.
Qed.

(** *** The tag of the external tagger *)

(** C2. With the tagger loaded ([HAS_PYMUSAS] true) and a non-empty tag
    list on the token, the semantic value is the first tag of the list, and
    so is the [semantic] field of the entry.  The fallback is not called:
    the result is the same for every function in its place, one that raises
    included.  The list M1, Z5 gives M1 in both files. *)
Theorem external_first_tag_taken :
  (∀ fallback token first rest,
     Token.pymusas_tags token = Some (first :: rest) →
     primary_semantic true fallback token = Ret first ∧
     (∀ e, token_entry true fallback token = Ret e → semantic e = first) ∧
     (Token.complete token →
        ∃ e, token_entry true fallback token = Ret e ∧ semantic e = first)) ∧
  (∃ e, App.token_entry true
          (Token.with_tags (Some ["M1"; "Z5"]) (Token.word "of" "ADP")) = Ret e ∧
        semantic e = "M1") ∧
  (∃ e, NoCache.token_entry true
          (Token.with_tags (Some ["M1"; "Z5"]) (Token.word "of" "ADP")) = Ret e ∧
        semantic e = "M1").
Proof.
  split_and!.
  - intros fallback token first rest Ht.
    pose proof (primary_semantic_tagged true fallback token first rest eq_refl Ht) as Hs.
    split_and!.
    + exact Hs.
    + intros e He. apply token_entry_inv in He as (He & _).
      rewrite Hs in He. by injection He.
    + intros [Hc _]. by apply token_entry_complete.
  - eexists. split; reflexivity.
  - eexists. split; reflexivity.
Qed.

Lemma external_first_tag_taken_witness :
  primary_semantic true (λ _, Raise (AttributeError "lemma_"))
    (Token.with_tags (Some ["Q2.2"; "X2.1"]) (Token.word "run" "VERB")) = Ret "Q2.2".
Proof.
  apply (proj1 (proj1 external_first_tag_taken
           (λ _, Raise (AttributeError "lemma_"))
           (Token.with_tags (Some ["Q2.2"; "X2.1"]) (Token.word "run" "VERB"))
           "Q2.2" ["X2.1"] eq_refl)).
Defined.

(** C4. Without the tagger ([HAS_PYMUSAS] false) the semantic value is the
    result of the fallback on the token, in both files, and the tag list
    plays no part: two tokens that differ only in [pymusas_tags] yield the
    same entry, and two documents that differ only there yield the same
    response. *)
Theorem no_tagger_ignores_tags :
  ∀ fallback rules, (fallback, rules) ∈ entry_points →
    (∀ token, primary_semantic false fallback token = fallback token) ∧
    (∀ token token', same_but_tags token token' →
       token_entry false fallback token = token_entry false fallback token') ∧
    (∀ corpus_name doc doc', Forall2 same_but_tags doc doc' →
       analyze_text false fallback corpus_name doc =
       analyze_text false fallback corpus_name doc').
Proof.
  intros fallback rules Hin.
  assert (∀ token token', same_but_tags token token' →
            token_entry false fallback token = token_entry false fallback token')
    as Hentry.
  { intros token token' [tags ->].
    unfold token_entry, primary_semantic. simpl.
    by rewrite (fallback_ignores_tags _ _ _ _ Hin). }
  split_and!.
  - intros token. reflexivity.
  - exact Hentry.
  - intros corpus_name doc doc' Hdoc. unfold analyze_text.
    rewrite (for_token_in_ext false fallback doc doc'); [done |].
    eapply Forall2_impl; [exact Hdoc | exact Hentry].
Qed.

Lemma no_tagger_ignores_tags_witness :
  App.analyze_text false None
    [Token.with_tags (Some ["M1"]) (Token.word "go" "VERB"); Token.word "home" "ADV"] =
  App.analyze_text false None
    [Token.with_tags (Some []) (Token.word "go" "VERB");
     Token.with_tags (Some ["Z5"; "T1"]) (Token.word "home" "ADV")].
Proof.
  apply (proj2 (proj2 (no_tagger_ignores_tags App.get_semantic_fallback App.rules
                         ltac:(apply (list_elem_of_lookup_2 _ 0); reflexivity)))).
  repeat constructor.
  - by exists (Some []).
  - by exists (Some ["Z5"; "T1"]).
Defined.

(** *** The semantic field *)

(** C6, against the claim: the noun xyzzy matches no lexical rule and has no
    external tag, and its semantic field is O2, not Z99. *)
Lemma unmatched_noun_is_not_sentinel :
  ¬ (∀ has token e,
       App.token_entry has token = Ret e →
       semantic e ≠ "" ∧
       (unmatched App.rules (lower (lemma e)) → untagged token →
        semantic e = "Z99")).
Proof.
  intros H.
  destruct (H false (Token.word "xyzzy" "NOUN") _ eq_refl) as [_ Hz].
  assert (unmatched App.rules (lower "xyzzy")) as Hu by decide_by_computation.
  assert (untagged (Token.word "xyzzy" "NOUN")) as Ht by by left.
  specialize (Hz Hu Ht). discriminate Hz.
Qed.

(** The first tag is copied as it is, the empty string included. *)
Lemma empty_external_tag_kept :
  ∃ e, App.token_entry true
         (Token.with_tags (Some [""]) (Token.word "xyzzy" "NOUN")) = Ret e ∧
       semantic e = "".
Proof. eexists. split; reflexivity. Qed.

(** C6, amended.  In both files, for every entry the handler builds: the
    semantic field is non-empty, provided that the external tag, where one
    is taken, is non-empty; with the tagger loaded and an empty tag list it
    is Z99; and on the fallback path (no tagger, or no tag attribute on the
    token) it is Z99 exactly when no lexical rule matches the lemma and the
    part of speech is none of the nine that have a default. *)
Theorem semantic_never_empty :
  ∀ fallback rules, (fallback, rules) ∈ entry_points →
  ∀ has token e, token_entry has fallback token = Ret e →
    ((has = true → ∀ first rest,
        Token.pymusas_tags token = Some (first :: rest) → first ≠ "") →
     semantic e ≠ "") ∧
    (has = true → Token.pymusas_tags token = Some [] → semantic e = "Z99") ∧
    (has = false ∨ Token.pymusas_tags token = None →
     (semantic e = "Z99" ↔
      unmatched rules (lower (lemma e)) ∧ pos e ∉ pos_defaults.*1)).
Proof.
  intros fallback rules Hin has token e He.
  apply token_entry_inv in He as (Hs & _ & Hp & _ & _ & _ & Hl & _).
  assert (has = false ∨ Token.pymusas_tags token = None →
          fallback token = Ret (semantic e)) as Hfb.
  { intros Hpath. by apply (primary_semantic_by_fallback has). }
  split_and!.
  - intros Htag Hempty.
    destruct has; [destruct (Token.pymusas_tags token) as [[|first rest]|] eqn:Ht |].
    + rewrite primary_semantic_silent in Hs by done.
      injection Hs as Hs. by rewrite Hempty in Hs.
    + rewrite (primary_semantic_tagged _ _ _ first rest) in Hs by done.
      injection Hs as Hs. apply (Htag eq_refl first rest eq_refl). congruence.
    + destruct (fallback_returns _ _ token Hin) as (s & Hr & Hne); [by eexists ..|].
      rewrite Hfb in Hr by by right. congruence.
    + destruct (fallback_returns _ _ token Hin) as (s & Hr & Hne); [by eexists ..|].
      rewrite Hfb in Hr by by left. congruence.
  - intros -> Ht. rewrite primary_semantic_silent in Hs by done. by injection Hs.
  - intros Hpath. rewrite <- (fallback_sentinel_iff _ _ token _ _ Hin Hl Hp).
    rewrite (Hfb Hpath). split; [by intros -> | by intros [= ->]].
Qed.

Lemma semantic_never_empty_witness :
  (semantic (mk_entry "." "PUNCT" "" "Z99" "ROOT" 0 "." false false) ≠ "" ∧
   unmatched App.rules (lower ".") ∧ "PUNCT" ∉ pos_defaults.*1) ∧
  semantic (mk_entry "Hmm" "INTJ" "" "Z99" "ROOT" 0 "Hmm" false false) = "Z99" ∧
  semantic (mk_entry "walk" "VERB" "" "M1" "ROOT" 0 "walk" false false) ≠ "" ∧
  semantic (mk_entry "love" "VERB" "" "Z99" "ROOT" 0 "love" false false) = "Z99".
Proof.
  assert ((App.get_semantic_fallback, App.rules) ∈ entry_points) as Happ
    by (apply (list_elem_of_lookup_2 _ 0); reflexivity).
  assert ((NoCache.get_semantic_fallback, NoCache.rules) ∈ entry_points) as Hnc
    by (apply (list_elem_of_lookup_2 _ 1); reflexivity).
  split; [| split; [| split]].
  - destruct (semantic_never_empty _ _ Happ false (Token.word "." "PUNCT")
                (mk_entry "." "PUNCT" "" "Z99" "ROOT" 0 "." false false) eq_refl)
      as (Hne & _ & Hiff).
    split.
    + apply Hne. intros Hh. discriminate Hh.
    + apply Hiff; [by left | reflexivity].
  - destruct (semantic_never_empty _ _ Hnc true (Token.word "Hmm" "INTJ")
                (mk_entry "Hmm" "INTJ" "" "Z99" "ROOT" 0 "Hmm" false false) eq_refl)
      as (_ & _ & Hiff).
    apply Hiff; [by right |].
    split; decide_by_computation.
  - destruct (semantic_never_empty _ _ Happ true
                (Token.with_tags (Some ["M1"; "Z5"]) (Token.word "walk" "VERB"))
                (mk_entry "walk" "VERB" "" "M1" "ROOT" 0 "walk" false false) eq_refl)
      as (Hne & _ & _).
    apply Hne. intros _ first rest [= <- _]. discriminate.
  - destruct (semantic_never_empty _ _ Hnc true
                (Token.with_tags (Some []) (Token.word "love" "VERB"))
                (mk_entry "love" "VERB" "" "Z99" "ROOT" 0 "love" false false) eq_refl)
      as (_ & Hz & _).
    apply Hz; reflexivity.
Defined.

(** *** Failure of the analysis *)





(** The scenario of spec §8: I love cats, without the tagger. *)
Example i_love_cats :
  ∃ tokens,
    App.analyze_text false None
      [Token.word "I" "PRON"; Token.word "love" "VERB"; Token.word "cats" "NOUN"] =
      Json200 tokens 3 "unnamed" false ∧
    semantic <$> tokens = ["Z8"; "E1.1+"; "O2"].
Proof. eexists. split; reflexivity. Qed.

(** *** A token without the tag attribute *)

(** C9, against the claim: with the tagger loaded, a token whose tag list
    is Z99 alone, the tag that PyMUSAS gives to a word it does not know,
    has the semantic value Z99 although its list is not empty. *)
Lemma sentinel_without_empty_list :
  ¬ ((∀ token, Token.underscore token = Some None →
               App.primary_semantic true token = App.get_semantic_fallback token) ∧
     (∀ token, App.primary_semantic true token = Ret "Z99" →
               Token.pymusas_tags token = Some [])).
Proof.
  intros [_ H].
  specialize (H (Token.with_tags (Some ["Z99"]) (Token.word "xyzzy" "NOUN")) eq_refl).
  discriminate H.
Qed.

(** C9, amended.  A token whose [_] has no tag attribute gets the result
    of the fallback, whether the tagger is loaded or not.  With the tagger
    loaded the semantic value is Z99 in three cases only: the attribute is
    there with an empty list; the first tag of the list is Z99; or the
    attribute is absent and the fallback answers Z99, which in both files
    it does exactly for a lemma that no lexical rule matches with a part
    of speech that has no default. *)
Theorem missing_attribute_falls_back :
  (∀ has fallback token,
     Token.underscore token = Some None →
     primary_semantic has fallback token = fallback token) ∧
  (∀ fallback token,
     primary_semantic true fallback token = Ret "Z99" ↔
     Token.pymusas_tags token = Some [] ∨
     (∃ rest, Token.pymusas_tags token = Some ("Z99" :: rest)) ∨
     (Token.underscore token = Some None ∧ fallback token = Ret "Z99")) ∧
  (∀ fallback rules token lemma pos,
     (fallback, rules) ∈ entry_points →
     Token.lemma_ token = Some lemma → Token.pos_ token = Some pos →
     (fallback token = Ret "Z99" ↔
      unmatched rules (lower lemma) ∧ pos ∉ pos_defaults.*1)).
Proof.
  split_and!.
  - intros has fallback token Ht. by apply primary_semantic_no_attribute.
  - apply primary_semantic_sentinel.
  - intros fallback rules token lemma pos Hin Hl Hp.
    by apply (fallback_sentinel_iff _ rules).
Qed.

Lemma missing_attribute_falls_back_witness :
  App.primary_semantic true (Token.word "walk" "VERB") = Ret "M1" ∧
  NoCache.primary_semantic true (Token.with_tags (Some []) (Token.word "walk" "VERB"))
    = Ret "Z99" ∧
  App.primary_semantic true (Token.word "?" "PUNCT") = Ret "Z99" ∧
  (unmatched NoCache.rules (lower "Good") ∧ "X" ∉ pos_defaults.*1).
Proof.
  destruct missing_attribute_falls_back as (Hnone & Hz & Hfb).
  split; [| split; [| split]].
  - unfold App.primary_semantic.
    rewrite (Hnone true App.get_semantic_fallback (Token.word "walk" "VERB") eq_refl).
    reflexivity.
  - apply (Hz NoCache.get_semantic_fallback). left. reflexivity.
  - apply (Hz App.get_semantic_fallback). right. right. split; [reflexivity |].
    apply (Hfb App.get_semantic_fallback App.rules (Token.word "?" "PUNCT") "?" "PUNCT"
             ltac:(apply (list_elem_of_lookup_2 _ 0); reflexivity) eq_refl eq_refl).
    split; decide_by_computation.
  - apply (Hfb NoCache.get_semantic_fallback NoCache.rules
             (Token.word "Good" "X") "Good" "X"
             ltac:(apply (list_elem_of_lookup_2 _ 1); reflexivity) eq_refl eq_refl).
    reflexivity.
Defined.

(** ** More on the fallback tagger *)

Lemma vocabulary_cons r (rules : list (gset string * string)) :
  vocabulary (r :: rules) = r.1 ∪ vocabulary rules.
Proof. reflexivity. Qed.

Lemma unmatched_vocabulary rules lemma :
  unmatched rules lemma ↔ lemma ∉ vocabulary rules.
Proof.
  unfold unmatched. induction rules as [|r rest IH].
  - split; [intros _; apply not_elem_of_empty | constructor].
  - rewrite Forall_cons, vocabulary_cons, not_elem_of_union, IH. done.
Qed.

Lemma first_match_in_codes rules lemma code :
  first_match rules lemma = Some code → code ∈ rules.*2.
Proof.
  induction rules as [|[words c] rest IH]; simpl; [done |].
  case_decide.
  - intros [= ->]. apply elem_of_cons. by left.
  - intros H'. apply elem_of_cons. right. by apply IH.
Qed.

(** The chain of comparisons on [pos] in app.py is the lookup in
    [pos_defaults]. *)
Lemma app_pos_chain pos :
  (if decide (pos = "NOUN") then "O2"
   else if decide (pos = "PROPN") then "Z3"
   else if decide (pos = "VERB") then "A3+"
   else if decide (pos = "ADJ") then "A5"
   else if decide (pos = "ADV") then "A13"
   else if decide (pos = "NUM") then "N1"
   else if decide (pos = "ADP") then "Z5"
   else if decide (pos = "DET") then "Z5"
   else if decide (pos = "PRON") then "Z8"
   else "Z99") = default "Z99" (assoc pos_defaults pos).
Proof. unfold pos_defaults. simpl. repeat case_decide; reflexivity. Qed.

Lemma nocache_pos_chain pos :
  (if decide (pos = "NOUN") then "O2"
   else if decide (pos = "PROPN") then "Z3"
   else if decide (pos = "VERB") then "A3+"
   else if decide (pos = "ADJ") then "A5"
   else if decide (pos = "ADV") then "A13"
   else if decide (pos = "NUM") then "N1"
   else if decide (pos ∈ ["ADP"; "DET"]) then "Z5"
   else if decide (pos = "PRON") then "Z8"
   else "Z99") = default "Z99" (assoc pos_defaults pos).
Proof.
  unfold pos_defaults. simpl.
  repeat case_decide; try reflexivity; subst;
    repeat match goal with
           | H : _ ∈ _ |- _ => rewrite !elem_of_cons, elem_of_nil in H
           | H : _ ∉ _ |- _ => rewrite !not_elem_of_cons in H
           end; try tauto; try naive_solver.
Qed.

Lemma fallback_table_form fallback rules token lemma pos :
  (fallback, rules) ∈ entry_points →
  Token.lemma_ token = Some lemma → Token.pos_ token = Some pos →
  fallback token = Ret (table_classify rules lemma pos).
Proof.
  intros Hin Hl Hp. revert fallback rules Hin.
  apply (entry_points_cases (λ f r, f token = Ret (table_classify r lemma pos)));
    unfold table_classify.
  - destruct (first_match App.rules (lower lemma)) as [code|] eqn:Hfm.
    + by apply (app_fallback_lexical _ lemma pos).
    + apply unmatched_first_match in Hfm.
      rewrite (app_fallback_unmatched _ _ _ Hl Hp Hfm). by rewrite app_pos_chain.
  - destruct (first_match NoCache.rules (lower lemma)) as [code|] eqn:Hfm.
    + by apply (nocache_fallback_lexical _ lemma pos).
    + apply unmatched_first_match in Hfm.
      rewrite (nocache_fallback_unmatched _ _ _ Hl Hp Hfm).
      by rewrite nocache_pos_chain.
Qed.

(** X2. In both files the chain of tests of [get_semantic_fallback] is a
    lookup in two tables: the code of the first rule, in the order of
    [rules], whose set holds the lower-cased lemma; failing that the code
    that [pos_defaults] gives to the part of speech; failing that Z99. *)
Theorem fallback_is_table_lookup :
  ∀ fallback rules token lemma pos,
    (fallback, rules) ∈ entry_points →
    Token.lemma_ token = Some lemma → Token.pos_ token = Some pos →
    fallback token = Ret (table_classify rules lemma pos).
Proof.
  intros fallback rules token lemma pos Hin Hl Hp.
  rewrite (fallback_table_form _ _ _ _ _ Hin Hl Hp). reflexivity.
Qed.

Lemma fallback_is_table_lookup_witness :
  NoCache.get_semantic_fallback (Token.word "The" "DET") = Ret "Z5".
Proof.
  apply (fallback_is_table_lookup NoCache.get_semantic_fallback NoCache.rules
           (Token.word "The" "DET") "The" "DET"
           ltac:(apply (list_elem_of_lookup_2 _ 1); reflexivity) eq_refl eq_refl).
Defined.

(** A default is never the code of a lexical rule. *)
Lemma pos_default_not_lexical pos code :
  code ∈ App.rules.*2 → default "Z99" (assoc pos_defaults pos) ≠ code.
Proof.
  intros Hc Heq. revert Hc. rewrite <- Heq. clear Heq.
  unfold pos_defaults. simpl. repeat case_decide; decide_by_computation.
Qed.

Lemma nocache_codes_in_app : NoCache.rules.*2 ⊆ App.rules.*2.
Proof. decide_by_computation. Qed.

(** X3. In both files the code tells which kind of rule fired: the result
    is the code of a lexical rule exactly when the lower-cased lemma is in
    one of the vocabulary sets, and a default then never shows. *)
Theorem lexical_code_iff_in_vocabulary :
  ∀ fallback rules token lemma pos code,
    (fallback, rules) ∈ entry_points →
    Token.lemma_ token = Some lemma → Token.pos_ token = Some pos →
    fallback token = Ret code →
    (code ∈ rules.*2 ↔ lower lemma ∈ vocabulary rules).
Proof.
  intros fallback rules token lemma pos code Hin Hl Hp.
  rewrite (fallback_table_form _ _ _ _ _ Hin Hl Hp). unfold table_classify.
  assert (rules.*2 ⊆ App.rules.*2) as Hsub.
  { revert fallback rules Hin.
    apply (entry_points_cases (λ _ r, r.*2 ⊆ App.rules.*2));
      [done | apply nocache_codes_in_app]. }
  destruct (first_match rules (lower lemma)) as [c|] eqn:Hfm; intros [= <-].
  - split; intros _.
    + destruct (decide (lower lemma ∈ vocabulary rules)) as [|Hn]; [done |].
      apply unmatched_vocabulary, unmatched_first_match in Hn. congruence.
    + by apply (first_match_in_codes _ (lower lemma)).
  - apply unmatched_first_match, unmatched_vocabulary in Hfm. split.
    + intros Hc. exfalso. by apply (pos_default_not_lexical pos _ (Hsub _ Hc)).
    + done.
Qed.

Lemma lexical_code_iff_in_vocabulary_witness :
  "Q2.2" ∈ App.rules.*2 ↔ lower "Mention" ∈ vocabulary App.rules.
Proof.
  apply (lexical_code_iff_in_vocabulary App.get_semantic_fallback App.rules
           (Token.word "Mention" "NOUN") "Mention" "NOUN" "Q2.2"
           ltac:(apply (list_elem_of_lookup_2 _ 0); reflexivity)
           eq_refl eq_refl eq_refl).
Defined.

(** On the words of the NOCACHE file the two lists of rules answer alike. *)
Lemma first_match_on_shared lemma :
  lemma ∈ vocabulary NoCache.rules →
  first_match App.rules lemma = first_match NoCache.rules lemma.
Proof.
  intros Hl. apply elem_of_elements in Hl. revert lemma Hl.
  apply Forall_forall. decide_by_computation.
Qed.

(** On the other words of app.py only app.py has a rule. *)
Lemma first_match_on_app_only lemma :
  lemma ∈ app_only_words →
  is_Some (first_match App.rules lemma) ∧ first_match NoCache.rules lemma = None.
Proof.
  intros Hl. apply elem_of_elements in Hl. revert lemma Hl.
  apply Forall_forall. decide_by_computation.
Qed.

Lemma first_match_agree lemma :
  lemma ∉ app_only_words →
  first_match App.rules lemma = first_match NoCache.rules lemma.
Proof.
  intros Hn. destruct (decide (lemma ∈ vocabulary NoCache.rules)) as [Hin|Hout].
  - by apply first_match_on_shared.
  - assert (lemma ∉ vocabulary App.rules) as Happ.
    { intros Happ. apply Hn. unfold app_only_words. by apply elem_of_difference. }
    apply unmatched_vocabulary, unmatched_first_match in Hout, Happ. congruence.
Qed.

(** X4. The two classifiers differ exactly on the 28 words that only
    app.py has a rule for: the four words added to the sets of the NOCACHE
    file (depressed, enter, mention, remember), the positive adjectives but
    wonderful, the negative adjectives and the time words.  On a token
    whose lower-cased lemma is one of them the two results differ whatever
    the part of speech; on every other token they are equal. *)
Theorem fallbacks_agree_iff :
  (∀ token lemma pos,
     Token.lemma_ token = Some lemma → Token.pos_ token = Some pos →
     (App.get_semantic_fallback token = NoCache.get_semantic_fallback token ↔
      lower lemma ∉ app_only_words)) ∧
  app_only_words =
    {[ "depressed"; "enter"; "mention"; "remember";
       "good"; "great"; "excellent"; "amazing"; "beautiful"; "perfect"; "nice";
       "bad"; "poor"; "terrible"; "awful"; "horrible"; "ugly"; "wrong"; "worse";
       "today"; "tomorrow"; "yesterday"; "now"; "then"; "soon"; "later";
       "before"; "after" ]}.
Proof.
  split; [| decide_by_computation].
  intros token lemma pos Hl Hp.
  rewrite (fallback_table_form App.get_semantic_fallback App.rules _ _ _
             ltac:(apply (list_elem_of_lookup_2 _ 0); reflexivity) Hl Hp).
  rewrite (fallback_table_form NoCache.get_semantic_fallback NoCache.rules _ _ _
             ltac:(apply (list_elem_of_lookup_2 _ 1); reflexivity) Hl Hp).
  unfold table_classify. split.
  - intros Heq Hin. apply first_match_on_app_only in Hin as [[code Hc] Hn].
    rewrite Hc, Hn in Heq. injection Heq as Heq.
    apply (pos_default_not_lexical pos code); [| done].
    by apply (first_match_in_codes _ (lower lemma)).
  - intros Hn. by rewrite (first_match_agree _ Hn).
Qed.

Lemma fallbacks_agree_iff_witness :
  App.get_semantic_fallback (Token.word "Remember" "VERB") ≠
  NoCache.get_semantic_fallback (Token.word "Remember" "VERB") ∧
  App.get_semantic_fallback (Token.word "Wonderful" "ADJ") =
  NoCache.get_semantic_fallback (Token.word "Wonderful" "ADJ").
Proof.
  pose proof (proj1 fallbacks_agree_iff) as H. split.
  - intros Heq.
    apply (H (Token.word "Remember" "VERB") "Remember" "VERB" eq_refl eq_refl) in Heq.
    revert Heq. decide_by_computation.
  - apply (H (Token.word "Wonderful" "ADJ") "Wonderful" "ADJ" eq_refl eq_refl).
    decide_by_computation.
Defined.

(** X5. On every token that has a lemma and a part of speech the
    classifier of the NOCACHE file returns one of the fourteen codes of
    [nocache_codes], never the empty string, and each of the fourteen is
    the result on some word. *)
Theorem nocache_fallback_codes_exact :
  (∀ token lemma pos,
     Token.lemma_ token = Some lemma → Token.pos_ token = Some pos →
     ∃ code, NoCache.get_semantic_fallback token = Ret code ∧
             code ∈ nocache_codes ∧ code ≠ "") ∧
  (∀ code, code ∈ nocache_codes →
     ∃ lemma pos, NoCache.get_semantic_fallback (Token.word lemma pos) = Ret code).
Proof.
  split.
  - intros token lemma pos Hl Hp.
    unfold NoCache.get_semantic_fallback. rewrite Hl, Hp. simpl.
    repeat case_decide;
      (eexists; split; [reflexivity |]; split;
       [decide_by_computation | discriminate]).
  - intros code. unfold nocache_codes. rewrite !elem_of_cons, elem_of_nil.
    intros H. repeat destruct H as [->|H]; [..| done].
    + by exists "joy", "NOUN".
    + by exists "sad", "ADJ".
    + by exists "go", "VERB".
    + by exists "say", "VERB".
    + by exists "know", "VERB".
    + by exists "cat", "NOUN".
    + by exists "basra", "PROPN".
    + by exists "be", "VERB".
    + by exists "good", "ADJ".
    + by exists "very", "ADV".
    + by exists "two", "NUM".
    + by exists "of", "ADP".
    + by exists "i", "PRON".
    + by exists ".", "PUNCT".
Qed.

Lemma nocache_fallback_codes_exact_witness :
  ∃ code, NoCache.get_semantic_fallback (Token.word "Tomorrow" "ADV") = Ret code ∧
          code ∈ nocache_codes ∧ code ≠ "".
Proof.
  apply (proj1 nocache_fallback_codes_exact (Token.word "Tomorrow" "ADV")
           "Tomorrow" "ADV"); reflexivity.
Defined.

Lemma lower_char_idempotent c : lower_char (lower_char c) = lower_char c.
Proof. destruct c as [[] [] [] [] [] [] [] []]; reflexivity. Qed.

(** [lower_char] makes none of the three bytes of U+212A. *)
Lemma lower_char_kelvin_byte c d :
  d = "226"%char ∨ d = "132"%char ∨ d = "170"%char →
  lower_char c = d → c = d.
Proof.
  intros Hd <-. destruct c as [[] [] [] [] [] [] [] []];
    try reflexivity; exfalso; revert Hd; vm_compute; intros [|[|]]; discriminate.
Qed.

Lemma is_kelvin_sign_true c1 c2 c3 :
  is_kelvin_sign c1 c2 c3 = true ↔
  c1 = "226"%char ∧ c2 = "132"%char ∧ c3 = "170"%char.
Proof.
  unfold is_kelvin_sign. rewrite !andb_true_iff, !Ascii.eqb_eq. tauto.
Qed.

Lemma lower_kelvin rest :
  lower (String "226" (String "132" (String "170" rest))) = String "k" (lower rest).
Proof. reflexivity. Qed.

Lemma lower_other c rest :
  ¬ kelvin_head (String c rest) →
  lower (String c rest) = String (lower_char c) (lower rest).
Proof.
  intros Hn. destruct rest as [|c2 [|c3 rest']]; try reflexivity.
  change (lower (String c (String c2 (String c3 rest'))))
    with (if is_kelvin_sign c c2 c3 then String "k" (lower rest')
          else String (lower_char c) (lower (String c2 (String c3 rest')))).
  destruct (is_kelvin_sign c c2 c3) eqn:Hk; [| reflexivity].
  apply is_kelvin_sign_true in Hk as (-> & -> & ->).
  destruct Hn. by exists rest'.
Qed.

Lemma kelvin_head_dec s : kelvin_head s ∨ ¬ kelvin_head s.
Proof.
  destruct s as [|c1 [|c2 [|c3 rest]]];
    try (right; intros [r Hr]; discriminate Hr).
  destruct (is_kelvin_sign c1 c2 c3) eqn:Hk.
  - apply is_kelvin_sign_true in Hk as (-> & -> & ->). left. by exists rest.
  - right. intros [r [= -> -> -> _]]. discriminate Hk.
Qed.

(** A lower-cased string that begins with one of the bytes 132 and 170
    comes from a string that begins with it. *)
Lemma lower_cons_inv s d t :
  d = "132"%char ∨ d = "170"%char →
  lower s = String d t → ∃ u, s = String d u ∧ t = lower u.
Proof.
  intros Hd Hs. destruct s as [|c rest]; [discriminate Hs |].
  destruct (kelvin_head_dec (String c rest)) as [[r Hr] | Hn].
  - rewrite Hr, lower_kelvin in Hs. injection Hs as <- _.
    destruct Hd as [Hd | Hd]; discriminate Hd.
  - rewrite (lower_other _ _ Hn) in Hs. injection Hs as Hc <-.
    apply lower_char_kelvin_byte in Hc as ->; [| tauto]. by exists rest.
Qed.

(** Lower-casing brings no U+212A to the head of a string. *)
Lemma lower_not_kelvin_head c rest :
  ¬ kelvin_head (String c rest) →
  ¬ kelvin_head (String (lower_char c) (lower rest)).
Proof.
  intros Hn [r Hr]. injection Hr as Hc Hrest.
  apply lower_char_kelvin_byte in Hc as ->; [| tauto].
  apply lower_cons_inv in Hrest as (u & -> & Hu); [| tauto].
  symmetry in Hu. apply lower_cons_inv in Hu as (u' & -> & _); [| tauto].
  apply Hn. by exists u'.
Qed.

Lemma lower_idempotent_upto (n : nat) (s : string) :
  (String.length s ≤ n)%nat → lower (lower s) = lower s.
Proof.
  revert s. induction n as [|n IH]; intros s Hlen.
  - destruct s; [reflexivity | simpl in Hlen; lia].
  - destruct s as [|c rest]; [reflexivity |].
    destruct (kelvin_head_dec (String c rest)) as [[r Hr] | Hn].
    + rewrite Hr, lower_kelvin. rewrite lower_other.
      * rewrite IH; [reflexivity |]. rewrite Hr in Hlen. simpl in Hlen. lia.
      * intros [r' Hr']. discriminate Hr'.
    + rewrite (lower_other _ _ Hn).
      rewrite (lower_other _ _ (lower_not_kelvin_head _ _ Hn)).
      rewrite lower_char_idempotent, IH; [reflexivity |]. simpl in Hlen. lia.
Qed.

Lemma lower_idempotent s : lower (lower s) = lower s.
Proof. by apply (lower_idempotent_upto (String.length s)). Qed.

(** The Kelvin sign counts as the letter k, as in [str.lower]. *)
Example kelvin_sign_is_k :
  App.get_semantic_fallback
    (Token.word (String.append "AS" kelvin_sign) "NOUN") = Ret "Q2.2" ∧
  NoCache.get_semantic_fallback
    (Token.word (String.append "tal" kelvin_sign) "PUNCT") = Ret "Q2.2".
Proof. split; reflexivity. Qed.

(** X9. Both classifiers ignore the case of the lemma for every rule, not
    for the positive-emotion words only: two tokens with the same part of
    speech whose lemmas have the same lower-casing get the same result, and
    so a lemma and its lower-casing do. *)
Theorem fallback_ignores_case :
  ∀ fallback rules token token' lemma lemma' pos,
    (fallback, rules) ∈ entry_points →
    Token.lemma_ token = Some lemma → Token.lemma_ token' = Some lemma' →
    Token.pos_ token = Some pos → Token.pos_ token' = Some pos →
    lower lemma = lower lemma' ∨ lemma' = lower lemma →
    fallback token = fallback token'.
Proof.
  intros fallback rules token token' lemma lemma' pos Hin Hl Hl' Hp Hp' Hcase.
  rewrite (fallback_table_form _ _ token _ _ Hin Hl Hp).
  rewrite (fallback_table_form _ _ token' _ _ Hin Hl' Hp').
  unfold table_classify.
  assert (lower lemma = lower lemma') as ->; [| done].
  destruct Hcase as [-> | ->]; [done | by rewrite lower_idempotent].
Qed.

Lemma fallback_ignores_case_witness :
  App.get_semantic_fallback (Token.word "YESTERDAY" "NOUN") =
  App.get_semantic_fallback (Token.word "yesterday" "NOUN").
Proof.
  apply (fallback_ignores_case App.get_semantic_fallback App.rules
           (Token.word "YESTERDAY" "NOUN") (Token.word "yesterday" "NOUN")
           "YESTERDAY" "yesterday" "NOUN"
           ltac:(apply (list_elem_of_lookup_2 _ 0); reflexivity)
           eq_refl eq_refl eq_refl eq_refl).
  right. reflexivity.
Defined.

(** ** More on the handler *)

Lemma for_token_in_app has fallback doc1 doc2 tokens :
  for_token_in has fallback (doc1 ++ doc2) tokens =
  out ← for_token_in has fallback doc1 tokens; for_token_in has fallback doc2 out.
Proof.
  revert tokens. induction doc1 as [|token rest IH]; intros tokens; simpl.
  - reflexivity.
  - destruct (token_entry has fallback token) as [e|x]; simpl; [apply IH | done].
Qed.

(** The entries do not depend on the list the loop starts with. *)
Lemma for_token_in_shift has fallback doc tokens :
  for_token_in has fallback doc tokens =
  app tokens <$> for_token_in has fallback doc [].
Proof.
  destruct (for_token_in has fallback doc []) as [es|x] eqn:Hnil.
  - apply for_token_in_ret in Hnil as (es' & Hes & ->). simpl.
    apply for_token_in_ret. by exists es'.
  - assert (∃ x, for_token_in has fallback doc [] = Raise x) as Hr by by exists x.
    apply for_token_in_raise in Hr. apply (for_token_in_raise _ _ _ tokens) in Hr.
    destruct Hr as [x' Hx']. rewrite Hx'. simpl.
    clear -Hnil Hx'. revert tokens Hx' Hnil. generalize (@nil entry).
    induction doc as [|token rest IH]; intros acc tokens; simpl; [done |].
    destruct (token_entry has fallback token) as [e|y]; simpl.
    + apply IH.
    + congruence.
Qed.

Lemma for_token_in_two has f g doc tokens :
  Forall (λ t, token_entry has f t = token_entry has g t) doc →
  for_token_in has f doc tokens = for_token_in has g doc tokens.
Proof.
  intros H. revert tokens. induction H as [|t doc Ht _ IH]; intros tokens; simpl.
  - reflexivity.
  - rewrite Ht. destruct (token_entry has g t); simpl; [apply IH | done].
Qed.

(** X1. Every 200 answer of /analyze, in both files, has one entry per
    token at the position of the token, and the entry copies the token:
    word, pos, tag, dep, head, lemma, is_stop and is_punct are the
    attributes of the token, and semantic is the value chosen for it.  The
    count is the number of tokens, the corpus name the one sent (unnamed
    if none), and the flag is [HAS_PYMUSAS]. *)
Theorem entries_copy_tokens :
  ∀ has fallback corpus_name doc tokens n c h,
    analyze_text has fallback corpus_name doc = Json200 tokens n c h →
    length tokens = length doc ∧ n = length doc ∧
    c = default "unnamed" corpus_name ∧ h = has ∧
    ∀ i token, doc !! i = Some token →
      ∃ e, tokens !! i = Some e ∧
           Token.text token = Some (word e) ∧ Token.pos_ token = Some (pos e) ∧
           Token.tag_ token = Some (tag e) ∧ Token.dep_ token = Some (dep e) ∧
           Token.head_i token = Some (head e) ∧
           Token.lemma_ token = Some (lemma e) ∧
           Token.is_stop token = Some (is_stop e) ∧
           Token.is_punct token = Some (is_punct e) ∧
           primary_semantic has fallback token = Ret (semantic e).
Proof.
  intros has fallback corpus_name doc tokens n c h. unfold analyze_text.
  destruct (for_token_in has fallback doc []) as [out|x] eqn:Hloop; [| done].
  intros [= <- <- <- <-].
  apply for_token_in_ret in Hloop as (es & Hes & ->). simpl.
  pose proof (Forall2_length _ _ _ Hes) as Hlen.
  split_and!; try done.
  intros i token Hi.
  destruct (Forall2_lookup_l _ _ _ _ _ Hes Hi) as (e & He & Hentry).
  exists e. apply token_entry_inv in Hentry. split; [done | tauto].
Qed.

Lemma entries_copy_tokens_witness :
  ∃ e, [mk_entry "Basra" "PROPN" "" "Z3" "ROOT" 0 "Basra" false false] !! 0 = Some e ∧
       Token.text (Token.word "Basra" "PROPN") = Some (word e) ∧
       Token.head_i (Token.word "Basra" "PROPN") = Some (head e).
Proof.
  destruct (entries_copy_tokens false App.get_semantic_fallback None
              [Token.word "Basra" "PROPN"]
              [mk_entry "Basra" "PROPN" "" "Z3" "ROOT" 0 "Basra" false false]
              1 "unnamed" false eq_refl)
    as (_ & _ & _ & _ & H).
  destruct (H 0 (Token.word "Basra" "PROPN") eq_refl) as (e & He & Hw & _ & _ & _ & Hh & _).
  exists e. done.
Defined.

(** X7. The analysis stops at the first token that fails: when the tokens
    before it yield their entries, the answer is the 500 of its exception,
    whatever tokens follow. *)
Theorem first_failure_decides :
  ∀ has fallback corpus_name before token after x,
    Forall (λ t, ∃ e, token_entry has fallback t = Ret e) before →
    token_entry has fallback token = Raise x →
    analyze_text has fallback corpus_name (before ++ token :: after) = Json500 x.
Proof.
  intros has fallback corpus_name before token after x Hbefore Hx.
  unfold analyze_text. rewrite for_token_in_app.
  assert (∃ es, for_token_in has fallback before [] = Ret es) as [es ->].
  { destruct (for_token_in has fallback before []) as [es|y] eqn:Hloop; [by exists es |].
    exfalso.
    assert (∃ y, for_token_in has fallback before [] = Raise y) as Hr by by exists y.
    apply for_token_in_raise, Exists_exists in Hr as (t & Hin & [z Hz]).
    rewrite Forall_forall in Hbefore. destruct (Hbefore t Hin) as [e He]. congruence. }
  simpl. by rewrite Hx.
Qed.

Lemma first_failure_decides_witness :
  NoCache.analyze_text false (Some "essay")
    [Token.word "We" "PRON";
     Token.mk (Some "ran") None (Some "VBD") (Some "ROOT") (Some 1) None
              (Some false) (Some false) None;
     Token.mk None None None None None None None None None] =
  Json500 (AttributeError "pos_").
Proof.
  apply (first_failure_decides false NoCache.get_semantic_fallback (Some "essay")
           [Token.word "We" "PRON"]
           (Token.mk (Some "ran") None (Some "VBD") (Some "ROOT") (Some 1) None
                     (Some false) (Some false) None)
           [Token.mk None None None None None None None None None]
           (AttributeError "pos_")).
  - repeat constructor. by eexists.
  - reflexivity.
Defined.

(** X8. Tokens are annotated one by one, with nothing carried from one to
    the next: when two documents are both answered 200, their
    concatenation is answered 200 with the two lists of entries one after
    the other and the sum of the counts. *)
Theorem analysis_of_concatenation :
  ∀ has fallback corpus_name doc1 doc2 tokens1 tokens2 n1 n2 c1 c2 h1 h2,
    analyze_text has fallback corpus_name doc1 = Json200 tokens1 n1 c1 h1 →
    analyze_text has fallback corpus_name doc2 = Json200 tokens2 n2 c2 h2 →
    analyze_text has fallback corpus_name (doc1 ++ doc2) =
      Json200 (tokens1 ++ tokens2) (n1 + n2) (default "unnamed" corpus_name) has.
Proof.
  intros has fallback corpus_name doc1 doc2 tokens1 tokens2 n1 n2 c1 c2 h1 h2.
  unfold analyze_text. rewrite for_token_in_app.
  destruct (for_token_in has fallback doc1 []) as [es1|] eqn:H1; [| done].
  intros [= <- <- _ _]. simpl. rewrite (for_token_in_shift _ _ doc2 es1).
  destruct (for_token_in has fallback doc2 []) as [es2|] eqn:H2; [| done].
  intros [= <- <- _ _]. simpl. by rewrite length_app.
Qed.

Lemma analysis_of_concatenation_witness :
  App.analyze_text false None ([Token.word "I" "PRON"] ++ [Token.word "ran" "VERB"]) =
  Json200 ([mk_entry "I" "PRON" "" "Z8" "ROOT" 0 "I" false false] ++
           [mk_entry "ran" "VERB" "" "A3+" "ROOT" 0 "ran" false false])
          (1 + 1) "unnamed" false.
Proof.
  apply (analysis_of_concatenation false App.get_semantic_fallback None
           [Token.word "I" "PRON"] [Token.word "ran" "VERB"]
           _ _ 1 1 "unnamed" "unnamed" false false); reflexivity.
Defined.

(** Where the two fallbacks agree, lemma or no lemma. *)
Lemma fallbacks_agree_outside token :
  (∀ lemma, Token.lemma_ token = Some lemma → lower lemma ∉ app_only_words) →
  App.get_semantic_fallback token = NoCache.get_semantic_fallback token.
Proof.
  intros Hout.
  destruct (Token.pos_ token) as [pos|] eqn:Hp;
    [destruct (Token.lemma_ token) as [lemma|] eqn:Hl |].
  - rewrite (fallback_table_form App.get_semantic_fallback App.rules _ _ _
               ltac:(apply (list_elem_of_lookup_2 _ 0); reflexivity) Hl Hp).
    rewrite (fallback_table_form NoCache.get_semantic_fallback NoCache.rules _ _ _
               ltac:(apply (list_elem_of_lookup_2 _ 1); reflexivity) Hl Hp).
    unfold table_classify. by rewrite (first_match_agree _ (Hout lemma eq_refl)).
  - unfold App.get_semantic_fallback, NoCache.get_semantic_fallback.
    by rewrite Hp, Hl.
  - unfold App.get_semantic_fallback, NoCache.get_semantic_fallback.
    by rewrite Hp.
Qed.

(** X6. The two files answer /analyze alike on every document in which
    each token either carries the tag attribute while the tagger is loaded,
    or has a lemma outside the words that only app.py has a rule for.  In
    particular they answer alike whenever PyMUSAS has tagged every token. *)
Theorem entry_points_agree :
  ∀ has corpus_name doc,
    Forall (λ t, (has = true ∧ is_Some (Token.pymusas_tags t)) ∨
                 (∀ lemma, Token.lemma_ t = Some lemma →
                           lower lemma ∉ app_only_words)) doc →
    App.analyze_text has corpus_name doc = NoCache.analyze_text has corpus_name doc.
Proof.
  intros has corpus_name doc Hdoc.
  unfold App.analyze_text, NoCache.analyze_text, analyze_text.
  rewrite (for_token_in_two has App.get_semantic_fallback
             NoCache.get_semantic_fallback doc []); [done |].
  eapply Forall_impl; [exact Hdoc |].
  intros t [[-> [tags Ht]] | Hout]; unfold token_entry, primary_semantic.
  - apply pymusas_tags_Some in Ht. unfold hasattr_pymusas_tags. by rewrite Ht.
  - by rewrite (fallbacks_agree_outside t Hout).
Qed.

Lemma entry_points_agree_witness :
  App.analyze_text true None
    [Token.with_tags (Some ["A5.1"; "Z5"]) (Token.word "good" "ADJ");
     Token.word "walk" "NOUN"] =
  NoCache.analyze_text true None
    [Token.with_tags (Some ["A5.1"; "Z5"]) (Token.word "good" "ADJ");
     Token.word "walk" "NOUN"].
Proof.
  apply (entry_points_agree true None).
  apply Forall_cons_2; [| apply Forall_cons_2; [| apply Forall_nil_2]].
  - left. split; [reflexivity | by eexists].
  - right. intros lemma [= <-]. decide_by_computation.
Defined.

(** ** The head of /analyze *)

Lemma analyze_json_400 nlp has fallback data :
  (∃ msg, analyze_json nlp has fallback data = Error400 msg) ↔ lacks_text data.
Proof.
  unfold analyze_json, lacks_text. destruct data as [d|]; [| split; eauto].
  destruct (decide (d = ∅)) as [-> | Hne].
  - split; [| eauto]. intros _. right. exists ∅. by rewrite lookup_empty.
  - destruct (d !! "text") as [text|] eqn:Ht.
    + split; [by intros [msg ?] |]. intros [? | (d' & [= <-] & Hd')]; congruence.
    + split; [| eauto]. intros _. right. by exists d.
Qed.

(** X10. /analyze answers 400 exactly when the body is missing or has no
    text key (the empty object included), and the error is then always No
    text provided; a request with a text is never answered 400, in either
    file, and an OPTIONS request to the NOCACHE file is answered 204
    whatever its body. *)
Theorem analyze_rejects_iff_no_text :
  ∀ nlp has data,
    (app_analyze_text nlp has data = Error400 "No text provided" ↔
     lacks_text data) ∧
    (nocache_analyze_text nlp has POST data = Error400 "No text provided" ↔
     lacks_text data) ∧
    (∀ msg, app_analyze_text nlp has data = Error400 msg ∨
            nocache_analyze_text nlp has POST data = Error400 msg →
            msg = "No text provided" ∧ lacks_text data) ∧
    nocache_analyze_text nlp has OPTIONS data = Empty204.
Proof.
  intros nlp has data.
  assert (∀ fallback msg, analyze_json nlp has fallback data = Error400 msg →
                          msg = "No text provided") as Hmsg.
  { intros fallback msg. unfold analyze_json. destruct data as [d|]; [| by intros [= <-]].
    destruct (decide (d = ∅)); [by intros [= <-] |].
    destruct (d !! "text"); [done | by intros [= <-]]. }
  assert (∀ fallback, analyze_json nlp has fallback data = Error400 "No text provided"
                      ↔ lacks_text data) as Hiff.
  { intros fallback. rewrite <- (analyze_json_400 nlp has fallback data). split.
    - intros H. by eexists.
    - intros [msg H]. by rewrite (Hmsg _ _ H) in H. }
  split_and!.
  - apply Hiff.
  - apply Hiff.
  - intros msg [H | H]; (split; [exact (Hmsg _ _ H) |]).
    + apply (analyze_json_400 nlp has App.get_semantic_fallback). by exists msg.
    + apply (analyze_json_400 nlp has NoCache.get_semantic_fallback). by exists msg.
  - reflexivity.
Qed.

Lemma analyze_rejects_iff_no_text_witness :
  app_analyze_text (λ _, []) true (Some {[ "corpus_name" := "essay" ]}) =
  Error400 "No text provided".
Proof.
  apply (analyze_rejects_iff_no_text (λ _, []) true
           (Some {[ "corpus_name" := "essay" ]})).
  right. exists {[ "corpus_name" := "essay" ]}. split; [reflexivity |].
  decide_by_computation.
Defined.

(** X11. Of the body /analyze reads the keys text and corpus_name only:
    two bodies that agree on these two keys get the same answer, in both
    files. *)
Theorem analyze_reads_two_keys :
  ∀ nlp has (d d' : gmap string string),
    d !! "text" = d' !! "text" →
    d !! "corpus_name" = d' !! "corpus_name" →
    app_analyze_text nlp has (Some d) = app_analyze_text nlp has (Some d') ∧
    ∀ method, nocache_analyze_text nlp has method (Some d) =
              nocache_analyze_text nlp has method (Some d').
Proof.
  intros nlp has d d' Htext Hname.
  assert (∀ fallback, analyze_json nlp has fallback (Some d) =
                      analyze_json nlp has fallback (Some d')) as H.
  { intros fallback. unfold analyze_json.
    destruct (decide (d = ∅)) as [-> | Hd], (decide (d' = ∅)) as [-> | Hd'].
    - reflexivity.
    - rewrite lookup_empty in Htext. by rewrite <- Htext.
    - rewrite lookup_empty in Htext. by rewrite Htext.
    - by rewrite Htext, Hname. }
  split; [apply H |]. intros [|]; [apply H | reflexivity].
Qed.

Lemma analyze_reads_two_keys_witness :
  app_analyze_text (λ text, [Token.word text "X"]) false
    (Some {[ "text" := "hello"; "lang" := "en" ]}) =
  app_analyze_text (λ text, [Token.word text "X"]) false
    (Some {[ "text" := "hello"; "user" := "jeff" ]}).
Proof.
  apply (analyze_reads_two_keys (λ text, [Token.word text "X"]) false
           {[ "text" := "hello"; "lang" := "en" ]}
           {[ "text" := "hello"; "user" := "jeff" ]});
    decide_by_computation.
Defined.

(** X12. A body with a text key is analysed whatever the text, the empty
    string included: when the pipeline returns tokens for it and they are
    complete, both files answer 200 with as many entries as tokens and the
    corpus name of the body, unnamed if it has none. *)
Theorem analyze_accepts_any_text :
  ∀ nlp has (d : gmap string string) text,
    d !! "text" = Some text →
    Forall Token.complete (nlp text) →
    (∃ tokens, app_analyze_text nlp has (Some d) =
               Analysis (Json200 tokens (length (nlp text))
                           (default "unnamed" (d !! "corpus_name")) has) ∧
               length tokens = length (nlp text)) ∧
    (∃ tokens, nocache_analyze_text nlp has POST (Some d) =
               Analysis (Json200 tokens (length (nlp text))
                           (default "unnamed" (d !! "corpus_name")) has) ∧
               length tokens = length (nlp text)).
Proof.
  intros nlp has d text Ht Hc.
  assert (d ≠ ∅) as Hne by (intros ->; by rewrite lookup_empty in Ht).
  assert (∀ fallback rules, (fallback, rules) ∈ entry_points →
            ∃ tokens, analyze_json nlp has fallback (Some d) =
                      Analysis (Json200 tokens (length (nlp text))
                                  (default "unnamed" (d !! "corpus_name")) has) ∧
                      length tokens = length (nlp text)) as H.
  { intros fallback rules Hin. unfold analyze_json.
    rewrite decide_False by done. rewrite Ht.
    destruct (analyze_text_succeeds has fallback) with
      (corpus_name := d !! "corpus_name") (doc := nlp text)
      as (tokens & Ha & Hes); [| done |].
    - intros token Hp Hl.
      destruct (fallback_returns _ _ token Hin Hp Hl) as (s & Hs & _). by exists s.
    - exists tokens. rewrite Ha. split; [done |].
      symmetry. exact (Forall2_length _ _ _ Hes). }
  split.
  - apply (H _ App.rules). apply (list_elem_of_lookup_2 _ 0). reflexivity.
  - apply (H _ NoCache.rules). apply (list_elem_of_lookup_2 _ 1). reflexivity.
Qed.

Lemma analyze_accepts_any_text_witness :
  ∃ tokens, app_analyze_text (λ _, []) false (Some {[ "text" := "" ]}) =
            Analysis (Json200 tokens 0 "unnamed" false) ∧
            length tokens = 0.
Proof.
  apply (proj1 (analyze_accepts_any_text (λ _, []) false {[ "text" := "" ]} ""
                  ltac:(decide_by_computation) ltac:(constructor))).
Defined.

(** ** The name of the highlighted PDF *)

Lemma before_last_dot_none s :
  "."%char ∉ chars s → before_last_dot s = None.
Proof.
  unfold chars. induction s as [|c s IH]; simpl; [done |].
  rewrite not_elem_of_cons. intros [Hc Hs].
  rewrite (IH Hs). by rewrite decide_False.
Qed.

Lemma before_last_dot_ext ext :
  "."%char ∉ chars ext →
  before_last_dot (String "." ext) = Some EmptyString.
Proof. intros H. simpl. by rewrite (before_last_dot_none _ H). Qed.

Lemma before_last_dot_app stem ext :
  "."%char ∉ chars ext →
  before_last_dot (String.append stem (String "." ext)) = Some stem.
Proof.
  intros H. induction stem as [|c stem IH].
  - by apply before_last_dot_ext.
  - change (String.append (String c stem) (String "." ext))
      with (String c (String.append stem (String "." ext))).
    cbn [before_last_dot]. by rewrite IH.
Qed.

(** X13. The name of the highlighted file is the uploaded name without
    its last extension, followed by _highlighted.pdf: only what follows
    the last full stop is dropped, so earlier full stops stay, a name that
    ends in a full stop loses just that, and a name without a full stop is
    kept whole. *)
Theorem output_filename_drops_last_extension :
  (∀ stem ext, "."%char ∉ chars ext →
     output_filename (String.append stem (String "." ext)) =
     String.append stem "_highlighted.pdf") ∧
  (∀ name, "."%char ∉ chars name →
     output_filename name = String.append name "_highlighted.pdf").
Proof.
  split.
  - intros stem ext H. unfold output_filename, rsplit_dot_head.
    by rewrite (before_last_dot_app _ _ H).
  - intros name H. unfold output_filename, rsplit_dot_head.
    by rewrite (before_last_dot_none _ H).
Qed.

Lemma output_filename_drops_last_extension_witness :
  output_filename "thesis.final.PDF" = "thesis.final_highlighted.pdf" ∧
  output_filename "scan" = "scan_highlighted.pdf".
Proof.
  split.
  - apply (proj1 output_filename_drops_last_extension "thesis.final" "PDF").
    decide_by_computation.
  - apply (proj2 output_filename_drops_last_extension "scan").
    decide_by_computation.
Defined.
